(** * A shallow embedding of the inventory API of [app.py]

    The application is a Flask program over one SQLAlchemy table.  Every
    route handler of [app.py] is translated below into a function from the
    stored table to either a raised Python exception or a new table and an
    HTTP response; the error handlers registered with [@app.errorhandler]
    turn the exception into a response at one place, [respond].

    What the handlers are written against is modelled as follows.
    - JSON request and response bodies are values of [json]; a Python
      [int] is a [Z], a Python [float] is a binary64 number ([spec_float]).
      A request without a JSON document has the body [JNull].
    - The table [product] is the list of its rows in rowid order, which is
      the order in which SQLite scans a table that has no ORDER BY.
    - A session is committed at most once per request and is discarded when
      the request raises, so a handler that raises leaves the table as it was.
    - Requests are served one after the other.
    - Texts are strings of 8-bit characters.
    - The libraries are those the calls in [app.py] are written for:
      [jwt_required()] of Flask-JWT-Extended 4, the positional
      [paginate(page, per_page, error_out)] of Flask-SQLAlchemy 2.5, and
      SQLAlchemy 1.4 on SQLite.  The expiry of a token is not modelled. *)

From Stdlib Require Import ZArith List String Ascii Bool Lia.
From Stdlib Require Import SpecFloat DecimalString Sorted.
Import ListNotations.

Local Open Scope string_scope.
Local Open Scope Z_scope.
Local Open Scope list_scope.

(** ** Python values read from and written to JSON *)

#[warnings="-register-all"]
Inductive json : Type :=
| JNull
| JBool (b : bool)
| JInt (z : Z)
| JFloat (f : spec_float)
| JStr (s : string)
| JList (l : list json)
| JDict (kvs : list (string * json)).

(** Exceptions the handlers can raise.  [NotFound] is werkzeug's HTTP 404
    ([abort(404)]); all others are ordinary Python or database errors. *)
Inductive exn : Type :=
| NotFound
| AttributeError
| KeyError
| TypeError
| ValueError
| OverflowError
| IntegrityError
| InterfaceError
| ArgumentError.

Definition result (A : Type) : Type := (exn + A)%type.

Definition ret {A} (a : A) : result A := inr a.
Definition raise {A} (e : exn) : result A := inl e.
Definition bind {A B} (m : result A) (k : A -> result B) : result B :=
  match m with
  | inl e => inl e
  | inr a => k a
  end.

Declare Scope py_scope.
Delimit Scope py_scope with py.
Notation "x <- m ;; k" := (bind m (fun x => k))
  (at level 61, m at next level, right associativity) : py_scope.
Notation "' pat <- m ;; k" := (bind m (fun x => match x with pat => k end))
  (at level 61, pat pattern, m at next level, right associativity) : py_scope.
Local Open Scope py_scope.

(** [bool(v)]: the values Python treats as false are [None], [False], zero
    of either numeric type, and the empty string, list and dict. *)
Definition truthy (v : json) : bool :=
  match v with
  | JNull => false
  | JBool b => b
  | JInt z => negb (z =? 0)
  | JFloat (S754_zero _) => false
  | JFloat _ => true
  | JStr s => negb (s =? "")%string
  | JList l => match l with [] => false | _ => true end
  | JDict kvs => match kvs with [] => false | _ => true end
  end.

(** A dict is kept as the list of its items; a key is looked up by its
    first occurrence. *)
Fixpoint lookup (k : string) (kvs : list (string * json)) : option json :=
  match kvs with
  | [] => None
  | (k', v) :: rest => if (k =? k')%string then Some v else lookup k rest
  end.

(** [data.get(key, default)]: only a dict has the method. *)
Definition py_get (data : json) (key : string) (default : json) : result json :=
  match data with
  | JDict kvs =>
      match lookup key kvs with
      | Some v => ret v
      | None => ret default
      end
  | _ => raise AttributeError
  end.

(** [data[key]]: a missing key of a dict is a [KeyError]; a string key on
    anything that is not a dict is a [TypeError]. *)
Definition py_getitem (data : json) (key : string) : result json :=
  match data with
  | JDict kvs =>
      match lookup key kvs with
      | Some v => ret v
      | None => raise KeyError
      end
  | _ => raise TypeError
  end.

(** [v == s] for a string literal [s]: no value of another type equals a
    string. *)
Definition py_eq_str (v : json) (s : string) : bool :=
  match v with
  | JStr s' => (s' =? s)%string
  | _ => false
  end.

(** Binary64 arithmetic and [float(n)] for a Python [int]. *)
Definition prec : Z := 53.
Definition emax : Z := 1024.

Definition float_of_int (z : Z) : result spec_float :=
  match binary_normalize prec emax z 0 false with
  | S754_infinity _ => raise OverflowError
  | f => ret f
  end.

Definition int_to_float (z : Z) : spec_float :=
  binary_normalize prec emax z 0 false.

Definition is_numeric (v : json) : bool :=
  match v with
  | JBool _ | JInt _ | JFloat _ => true
  | _ => false
  end.

(** A Python number: a [bool] counts as the int 0 or 1. *)
Definition as_int (v : json) : option Z :=
  match v with
  | JBool b => Some (if b then 1 else 0)
  | JInt z => Some z
  | _ => None
  end.

Definition as_float (v : json) : result spec_float :=
  match v with
  | JBool b => ret (int_to_float (if b then 1 else 0))
  | JInt z => float_of_int z
  | JFloat f => ret f
  | _ => raise TypeError
  end.

(** Python compares an int with a float by their exact values. *)
Definition signed (s : bool) (m : positive) : Z :=
  if s then Z.neg m else Z.pos m.

Definition int_lt_float (z : Z) (f : spec_float) : bool :=
  match f with
  | S754_nan => false
  | S754_infinity s => negb s
  | S754_zero _ => z <? 0
  | S754_finite s m e =>
      if 0 <=? e then z <? signed s m * 2 ^ e
      else z * 2 ^ (- e) <? signed s m
  end.

Definition float_lt_int (f : spec_float) (z : Z) : bool :=
  match f with
  | S754_nan => false
  | S754_infinity s => s
  | S754_zero _ => 0 <? z
  | S754_finite s m e =>
      if 0 <=? e then signed s m * 2 ^ e <? z
      else signed s m <? z * 2 ^ (- e)
  end.

(** [a < b] where one side is a number: by value against a number, a
    [TypeError] against anything else. *)
Definition py_lt (a b : json) : result bool :=
  match as_int a, as_int b, a, b with
  | Some x, Some y, _, _ => ret (x <? y)
  | Some x, None, _, JFloat g => ret (int_lt_float x g)
  | None, Some y, JFloat f, _ => ret (float_lt_int f y)
  | None, None, JFloat f, JFloat g => ret (SFltb f g)
  | _, _, _, _ => raise TypeError
  end.

(** [a - b]: exact between two ints; with a float operand the other one is
    converted by [float] and the difference is rounded to binary64. *)
Definition py_sub (a b : json) : result json :=
  match as_int a, as_int b with
  | Some x, Some y => ret (JInt (x - y))
  | _, _ =>
      if is_numeric a && is_numeric b then
        x <- as_float a ;; y <- as_float b ;; ret (JFloat (SFsub prec emax x y))
      else raise TypeError
  end.

(** ** The table [product] and the statements issued against it *)

(** A stored row.  [Product] declares the columns [id], [barcode], [name]
    and [price], and no other. *)
Record Product : Type := mkProduct {
  id : Z;
  barcode : string;
  name : string;
  price : spec_float
}.

Definition Store : Type := list Product.

Definition columns : list string := ["id"; "barcode"; "name"; "price"].

(** [Product.to_dict]. *)
Definition to_dict (p : Product) : json :=
  JDict [("id", JInt (id p));
         ("barcode", JStr (barcode p));
         ("name", JStr (name p));
         ("price", JFloat (price p))].

(** Reading a data attribute of a loaded instance: a column gives its
    value, a name the class does not define is an [AttributeError]. *)
Definition py_getattr (p : Product) (attr : string) : result json :=
  if (attr =? "id")%string then ret (JInt (id p))
  else if (attr =? "barcode")%string then ret (JStr (barcode p))
  else if (attr =? "name")%string then ret (JStr (name p))
  else if (attr =? "price")%string then ret (JFloat (price p))
  else raise AttributeError.

(** Two conversions are left to the platform: Python's [float(s)] for a
    string ([None] when it raises [ValueError]) and the text SQLite stores
    when a REAL is written to a TEXT column.  Nothing proved below depends
    on what they compute. *)
Class Platform : Type := {
  float_of_str : string -> option spec_float;
  text_of_real : spec_float -> string
}.

Definition text_of_int (z : Z) : string :=
  NilZero.string_of_int (Z.to_int z).

Definition in_int64 (z : Z) : bool :=
  (- 2 ^ 63 <=? z) && (z <? 2 ^ 63).

Section Binding.
Context {platform : Platform}.

(** Binding a Python value to a [String] column declared NOT NULL.  The
    column has TEXT affinity, so a number is stored as its text; [None]
    violates NOT NULL; a list or dict cannot be bound at all. *)
Definition bind_text (v : json) : result string :=
  match v with
  | JNull => raise IntegrityError
  | JBool b => ret (if b then "1" else "0")
  | JInt z => if in_int64 z then ret (text_of_int z) else raise OverflowError
  | JFloat S754_nan => raise IntegrityError
  | JFloat f => ret (text_of_real f)
  | JStr s => ret s
  | JList _ | JDict _ => raise InterfaceError
  end.

(** [float(v)], which SQLAlchemy applies to a value bound to a [Float]
    column on SQLite. *)
Definition to_float (v : json) : result (option spec_float) :=
  match v with
  | JNull => ret None
  | JBool b => ret (Some (int_to_float (if b then 1 else 0)))
  | JInt z => f <- float_of_int z ;; ret (Some f)
  | JFloat f => ret (Some f)
  | JStr s =>
      match float_of_str s with
      | Some f => ret (Some f)
      | None => raise ValueError
      end
  | JList _ | JDict _ => raise TypeError
  end.

(** Binding to the [Float] column declared NOT NULL: SQLite stores a NaN
    as NULL, which the constraint rejects like [None].  The sign of a zero
    is kept as it is bound; the table gives a negative zero back as 0.0. *)
Definition bind_real (v : json) : result spec_float :=
  o <- to_float v ;;
  match o with
  | None => raise IntegrityError
  | Some S754_nan => raise IntegrityError
  | Some f => ret f
  end.

Definition barcodes (db : Store) : list string := map barcode db.

(** The rowid SQLite gives a new row of an INTEGER PRIMARY KEY table: one
    more than the largest one in use, 1 in an empty table. *)
Definition next_id (db : Store) : Z :=
  1 + fold_right Z.max 0 (map id db).

(** [db.session.add(Product(barcode=.., name=.., price=..))] followed by
    [db.session.commit()]: the INSERT fails on a barcode that a stored
    row already has ([unique=True]). *)
Definition insert_product (b n p : json) (db : Store)
  : result (Store * Product) :=
  b' <- bind_text b ;;
  n' <- bind_text n ;;
  p' <- bind_real p ;;
  if existsb (String.eqb b') (barcodes db) then raise IntegrityError
  else
    let row := mkProduct (next_id db) b' n' p' in
    ret (db ++ [row], row).

(** [Product.query.get(id)]. *)
Definition query_get (i : Z) (db : Store) : option Product :=
  find (fun p => id p =? i) db.

(** [Product.query.get_or_404(id)], for an id that SQLite can hold: the
    driver does not bind an id of 2^63 or more to the statement, which is
    not covered here. *)
Definition get_or_404 (i : Z) (db : Store) : result Product :=
  match query_get i db with
  | Some p => ret p
  | None => raise NotFound
  end.

Definition replace_row (row : Product) (db : Store) : Store :=
  map (fun p => if id p =? id row then row else p) db.

(** Assigning [product.name] and [product.price] and committing: the
    UPDATE writes both columns of the row with the product's id. *)
Definition update_columns (p : Product) (n pr : json) (db : Store)
  : result (Store * Product) :=
  n' <- bind_text n ;;
  pr' <- bind_real pr ;;
  let row := mkProduct (id p) (barcode p) n' pr' in
  ret (replace_row row db, row).

(** [db.session.delete(product)] followed by the commit. *)
Definition delete_row (p : Product) (db : Store) : Store :=
  filter (fun q => negb (id q =? id p)) db.

(** [product.stock = v] followed by the commit.  [stock] is not a column,
    so the assignment only creates an attribute on the Python object: the
    commit has nothing to write and the loaded row is what it was. *)
Definition set_stock_commit (p : Product) (v : json) (db : Store)
  : result (Store * Product) :=
  ret (db, p).
End Binding.

(** ** Queries: substring search and pagination *)

(** SQLite folds the 26 ASCII capitals when LIKE compares two characters. *)
Definition to_lower (c : ascii) : ascii :=
  let n := nat_of_ascii c in
  if (65 <=? n)%nat && (n <=? 90)%nat then ascii_of_nat (n + 32) else c.

(** [text LIKE pat] as SQLite evaluates it with no ESCAPE clause: in the
    pattern [%] stands for any run of characters, [_] for any one
    character, and every other character for itself up to ASCII case.
    A character is one byte here, as it is in a text of ASCII characters
    other than NUL; SQLite ends a text at a NUL and takes a multi-byte
    UTF-8 sequence for one character. *)
Fixpoint like (pat text : string) : bool :=
  match pat with
  | EmptyString =>
      match text with
      | EmptyString => true
      | String _ _ => false
      end
  | String c pat' =>
      if (c =? "%")%char then
        (fix skip (t : string) : bool :=
           like pat' t ||
           match t with
           | EmptyString => false
           | String _ t' => skip t'
           end) text
      else
        match text with
        | EmptyString => false
        | String d text' =>
            ((c =? "_")%char || (to_lower c =? to_lower d)%char)
            && like pat' text'
        end
  end.

(** [column.contains(query)] for a string is rendered as
    [column LIKE '%' || query || '%']. *)
Definition contains (text query : string) : bool :=
  like ("%" ++ query ++ "%")%string text.

(** The paginated result of [Query.paginate], as in Flask-SQLAlchemy 2.5,
    whose positional signature [paginate(page, per_page, error_out)] the
    handler calls. *)
Record Pagination : Type := mkPagination {
  items : list Product;
  total : Z;
  page : Z;
  per_page : Z
}.

(** [Pagination.pages]: the total divided by the page size, rounded up;
    no page when the page size is 0. *)
Definition pages (pg : Pagination) : Z :=
  if per_page pg =? 0 then 0
  else (total pg + per_page pg - 1) / per_page pg.

(** [paginate(page, per_page, error_out=False)]: a page below 1 becomes 1, a
    negative page size becomes 20, the rows are taken with LIMIT and OFFSET,
    and the rows are counted unless the first page already shows that there
    are fewer than a page of them.  The limit and the offset are bound to
    the statement as integers: one of 2^63 or more is an [OverflowError]. *)
Definition paginate (page0 per_page0 : Z) (db : Store) : result Pagination :=
  let pg := if page0 <? 1 then 1 else page0 in
  let size := if per_page0 <? 0 then 20 else per_page0 in
  if (size <? 2 ^ 63) && ((pg - 1) * size <? 2 ^ 63) then
    let rows :=
      firstn (Z.to_nat size) (skipn (Z.to_nat ((pg - 1) * size)) db) in
    let count :=
      if (pg =? 1) && (Z.of_nat (List.length rows) <? size)
      then Z.of_nat (List.length rows)
      else Z.of_nat (List.length db) in
    ret (mkPagination rows count pg size)
  else raise OverflowError.

(** ** Tokens and responses *)

(** A token is modelled by what it is signed with and what it carries. *)
Record access_token : Type := mkToken {
  signing_key : string;
  identity : json
}.

Definition JWT_SECRET_KEY : string := "your_jwt_secret_key".

Definition create_access_token (ident : json) : access_token :=
  mkToken JWT_SECRET_KEY ident.

Inductive body : Type :=
| Json (j : json)
| AccessToken (t : access_token).

Record Response : Type := mkResponse {
  status : Z;
  content : body
}.

Definition jsonify (j : json) (code : Z) : Response :=
  mkResponse code (Json j).

Definition error_body (msg : string) : json := JDict [("error", JStr msg)].

(** A route handler: it raises, or returns the table after its commit and
    the response. *)
Definition handler : Type := Store -> result (Store * Response).

(** [request.args.get(key, default, type=int)]: the argument is [None] when
    the parameter is absent or is not the text of an integer. *)
Definition args_get_int (arg : option Z) (default : Z) : Z :=
  match arg with
  | Some z => z
  | None => default
  end.

(** ** The route handlers *)

Section Routes.
Context {platform : Platform}.

(** POST /api/products *)
Definition add_product (data : json) : handler := fun db =>
  b <- py_get data "barcode" JNull ;;
  if negb (truthy b) then ret (db, jsonify (error_body "Missing required fields") 400)
  else
  n <- py_get data "name" JNull ;;
  if negb (truthy n) then ret (db, jsonify (error_body "Missing required fields") 400)
  else
  p <- py_get data "price" JNull ;;
  if negb (truthy p) then ret (db, jsonify (error_body "Missing required fields") 400)
  else
  b <- py_getitem data "barcode" ;;
  n <- py_getitem data "name" ;;
  p <- py_getitem data "price" ;;
  '(db', product) <- insert_product b n p db ;;
  ret (db', jsonify (to_dict product) 201).

(** The body of POST /api/products/protected, run once [jwt_required] has
    accepted the token; [current_user] is [get_jwt_identity()]. *)
Definition add_product_protected (current_user : json) (data : json) : handler :=
  fun db =>
  username <- py_getitem current_user "username" ;;
  if negb (py_eq_str username "admin")
  then ret (db, jsonify (error_body "Unauthorized") 403)
  else
  b <- py_getitem data "barcode" ;;
  n <- py_getitem data "name" ;;
  p <- py_getitem data "price" ;;
  '(db', product) <- insert_product b n p db ;;
  ret (db', jsonify (to_dict product) 201).

(** [@jwt_required()]: without a token the extension answers 401, with a
    token that is not signed with the application's key 422; otherwise the
    handler runs on the identity the token carries. *)
Definition jwt_required (h : json -> handler) (auth : option access_token)
  : handler := fun db =>
  match auth with
  | None =>
      ret (db, jsonify (JDict [("msg", JStr "Missing Authorization Header")]) 401)
  | Some t =>
      if (signing_key t =? JWT_SECRET_KEY)%string then h (identity t) db
      else ret (db, jsonify (JDict [("msg", JStr "Signature verification failed")]) 422)
  end.

(** GET /api/products/<int:id> *)
Definition get_product (i : Z) : handler := fun db =>
  product <- get_or_404 i db ;;
  ret (db, jsonify (to_dict product) 200).

(** PUT /api/products/<int:id> *)
Definition update_product (i : Z) (data : json) : handler := fun db =>
  product <- get_or_404 i db ;;
  n <- py_get data "name" (JStr (name product)) ;;
  p <- py_get data "price" (JFloat (price product)) ;;
  '(db', product') <- update_columns product n p db ;;
  ret (db', jsonify (to_dict product') 200).

(** DELETE /api/products/<int:id> *)
Definition delete_product (i : Z) : handler := fun db =>
  product <- get_or_404 i db ;;
  ret (delete_row product db,
       jsonify (JDict [("message", JStr "Product deleted")]) 200).

(** GET /api/products/search.  Without a [query] parameter the text is
    [None], which SQLAlchemy (1.4) refuses as the operand of [contains]. *)
Definition search_products (query : option string) : handler := fun db =>
  match query with
  | None => raise ArgumentError
  | Some q =>
      let products :=
        filter (fun p => contains (name p) q || contains (barcode p) q) db in
      ret (db, jsonify (JList (map to_dict products)) 200)
  end.

(** GET /api/products *)
Definition get_products (page_arg per_page_arg : option Z) : handler := fun db =>
  let page_no := args_get_int page_arg 1 in
  let page_size := args_get_int per_page_arg 10 in
  products <- paginate page_no page_size db ;;
  ret (db, jsonify (JDict [("products", JList (map to_dict (items products)));
                           ("total", JInt (total products));
                           ("pages", JInt (pages products));
                           ("current_page", JInt (page products))]) 200).

(** POST /api/products/sell/<int:id> *)
Definition sell_product (i : Z) (data : json) : handler := fun db =>
  product <- get_or_404 i db ;;
  quantity <- py_get data "quantity" (JInt 1) ;;
  stock <- py_getattr product "stock" ;;
  short <- py_lt stock quantity ;;
  if short then ret (db, jsonify (error_body "Not enough stock") 400)
  else
  stock <- py_getattr product "stock" ;;
  stock' <- py_sub stock quantity ;;
  '(db', product') <- set_stock_commit product stock' db ;;
  ret (db', jsonify (to_dict product') 200).

(** POST /login *)
Definition login (data : json) : handler := fun db =>
  username <- py_get data "username" JNull ;;
  password <- py_get data "password" JNull ;;
  if py_eq_str username "admin" && py_eq_str password "password" then
    let token := create_access_token (JDict [("username", username)]) in
    ret (db, mkResponse 200 (AccessToken token))
  else ret (db, jsonify (error_body "Invalid credentials") 401).

(** ** Error handlers and dispatch *)

(** [@app.errorhandler(Exception)] *)
Definition handle_exception (e : exn) : Response :=
  jsonify (error_body "An error occurred") 500.

(** [@app.errorhandler(404)] *)
Definition not_found : Response :=
  jsonify (error_body "Resource not found") 404.

(** [@app.errorhandler(500)]: it would answer an [abort(500)], which no
    handler calls; every exception raised is taken by [handle_exception]. *)
Definition internal_error : Response :=
  jsonify (error_body "Internal server error") 500.

(** Flask picks the handler registered for the status code of an HTTP
    exception before the one registered for [Exception]. *)
Definition respond (h : handler) (db : Store) : Store * Response :=
  match h db with
  | inr (db', r) => (db', r)
  | inl NotFound => (db, not_found)
  | inl e => (db, handle_exception e)
  end.

(** The requests the application serves. *)
Inductive request : Type :=
| PostProduct (data : json)
| PostProductProtected (auth : option access_token) (data : json)
| GetProduct (i : Z)
| PutProduct (i : Z) (data : json)
| DeleteProduct (i : Z)
| SearchProducts (query : option string)
| GetProducts (page_arg per_page_arg : option Z)
| SellProduct (i : Z) (data : json)
| Login (data : json).

Definition route (r : request) : handler :=
  match r with
  | PostProduct data => add_product data
  | PostProductProtected auth data => jwt_required (fun u => add_product_protected u data) auth
  | GetProduct i => get_product i
  | PutProduct i data => update_product i data
  | DeleteProduct i => delete_product i
  | SearchProducts q => search_products q
  | GetProducts pa ppa => get_products pa ppa
  | SellProduct i data => sell_product i data
  | Login data => login data
  end.

Definition serve (r : request) (db : Store) : Store * Response :=
  respond (route r) db.

(** The tables the application can hold: [db.create_all()] makes an empty
    one, and every request served leads from one to the next. *)
Inductive reachable : Store -> Prop :=
| reachable_init : reachable []
| reachable_step db r : reachable db -> reachable (fst (serve r db)).

End Routes.

(** ** Notions used to state the properties *)

(** A field of a request body that is absent or falsy. *)
Definition absent_or_falsy (kvs : list (string * json)) (k : string) : bool :=
  match lookup k kvs with
  | None => true
  | Some v => negb (truthy v)
  end.

(** A request body does not carry the key [k]. *)
Definition omits (data : json) (k : string) : Prop :=
  match data with
  | JDict kvs => lookup k kvs = None
  | _ => True
  end.

(** The float a JSON number is stored as in the [price] column: an integer
    within the range of binary64, or a float other than NaN and other than
    the negative zero, which the table does not keep apart from 0.0. *)
Definition json_number (v : json) : option spec_float :=
  match v with
  | JInt z =>
      match float_of_int z with
      | inr S754_nan => None
      | inr f => Some f
      | inl _ => None
      end
  | JFloat S754_nan => None
  | JFloat (S754_zero true) => None
  | JFloat f => Some f
  | _ => None
  end.





Definition missing_fields : Response :=
  jsonify (error_body "Missing required fields") 400.

Definition generic_error : Response :=
  jsonify (error_body "An error occurred") 500.

(** The credentials a login body carries are the one accepted pair. *)
Definition admin_pair (kvs : list (string * json)) : Prop :=
  lookup "username" kvs = Some (JStr "admin")
  /\ lookup "password" kvs = Some (JStr "password").

Definition invalid_credentials : Response :=
  jsonify (error_body "Invalid credentials") 401.

(** The page size a listing works with, and its number of pages. *)
Definition page_size_of (size : Z) : Z :=
  if size <? 0 then 20 else size.

Definition page_count (size : Z) (db : Store) : Z :=
  if page_size_of size =? 0 then 0
  else (Z.of_nat (List.length db) + page_size_of size - 1) / page_size_of size.

(** The page size and the row offset of the page can be bound to the
    statement. *)
Definition page_fits (pg size : Z) : Prop :=
  page_size_of size < 2 ^ 63
  /\ (Z.max 1 pg - 1) * page_size_of size < 2 ^ 63.

(** The requested page lies beyond the last page of the listing. *)
Definition out_of_range (pg size : Z) (db : Store) : Prop :=
  page_count size db < pg.



(** The two constraints the schema puts on the table. *)
Definition store_ok (db : Store) : Prop :=
  NoDup (map id db) /\ NoDup (barcodes db).

(** Data for the examples: a platform whose two conversions are never
    reached by values of the declared column types, and a few rows. *)
Definition example_platform : Platform :=
  {| float_of_str := fun _ => None; text_of_real := fun _ => "" |}.

Definition price_9_5 : spec_float := S754_finite false 5348024557502464 (-49).
Definition price_12_5 : spec_float := S754_finite false 7036874417766400 (-49).

Definition widget_body : list (string * json) :=
  [("barcode", JStr "036000291452"); ("name", JStr "Widget");
   ("price", JFloat price_9_5)].

Definition admin_token : access_token :=
  mkToken JWT_SECRET_KEY (JDict [("username", JStr "admin")]).

Definition widget : Product := mkProduct 1 "036000291452" "Widget" price_9_5.
Definition gadget : Product := mkProduct 2 "012345678905" "Gadget" price_12_5.
Definition gizmo : Product := mkProduct 3 "725272730706" "Gizmo" price_9_5.

(** ** Notions used to state the further properties *)

Definition product_deleted : Response :=
  jsonify (JDict [("message", JStr "Product deleted")]) 200.

(** The requests that create a product, by either route. *)
Definition is_create (r : request) : Prop :=
  match r with
  | PostProduct _ | PostProductProtected _ _ => True
  | _ => False
  end.

(** The requests of the routes that only read the table, and the two POST
    routes that never write to it. *)
Definition reads_only (r : request) : Prop :=
  match r with
  | GetProduct _ | SearchProducts _ | GetProducts _ _
  | SellProduct _ _ | Login _ => True
  | _ => False
  end.

(** Ids are positive and grow along the table. *)
Definition ids_ascending (db : Store) : Prop :=
  StronglySorted Z.lt (map id db) /\ Forall (fun i => 0 < i) (map id db).

(** A text with its ASCII capitals folded. *)
Fixpoint lower_string (s : string) : string :=
  match s with
  | EmptyString => EmptyString
  | String c s' => String (to_lower c) (lower_string s')
  end.

(** More data for the examples: a token for another user, and a body with
    an empty name and the price 0. *)
Definition bob_token : access_token :=
  mkToken JWT_SECRET_KEY (JDict [("username", JStr "bob")]).

Definition blank_body : list (string * json) :=
  [("barcode", JStr "036000291452"); ("name", JStr ""); ("price", JInt 0)].

(** A field of a response whose body is a JSON object, and the products a
    listing response carries. *)
Definition response_field (r : Response) (k : string) : option json :=
  match content r with
  | Json (JDict kvs) => lookup k kvs
  | _ => None
  end.

Definition listed (r : Response) : list json :=
  match response_field r "products" with
  | Some (JList l) => l
  | _ => []
  end.

(** The products of the answers to the pages 1 to [n] of a listing, one
    page after the other. *)
Definition walk_listing {platform : Platform} (size : Z) (db : Store) (n : nat)
  : list json :=
  flat_map
    (fun k => listed (snd (serve (GetProducts (Some (Z.of_nat k)) (Some size)) db)))
    (seq 1 n).

(** The table reached from the empty one by creating three products and
    deleting the second. *)
Definition widget_gizmo_requests : list request :=
  [PostProduct (JDict widget_body);
   PostProduct (JDict [("barcode", JStr "012345678905"); ("name", JStr "Gadget");
                       ("price", JFloat price_12_5)]);
   PostProduct (JDict [("barcode", JStr "725272730706"); ("name", JStr "Gizmo");
                       ("price", JFloat price_9_5)]);
   DeleteProduct 2].

(** * Properties *)

Section Properties.
Context {platform : Platform}.

(** ** Dispatch *)

Lemma respond_raise (h : handler) (db : Store) (e : exn) :
  h db = inl e ->
  respond h db = (db, if match e with NotFound => true | _ => false end
                      then not_found else handle_exception e).
Proof.
  intros Hh. unfold respond. rewrite Hh. destruct e; reflexivity.
Qed.

Lemma respond_return (h : handler) (db db' : Store) (r : Response) :
  h db = inr (db', r) -> respond h db = (db', r).
Proof.
  intros Hh. unfold respond. rewrite Hh. reflexivity.
Qed.

Lemma get_or_404_found (i : Z) (db : Store) (p : Product) :
  query_get i db = Some p -> get_or_404 i db = ret p.
Proof.
  intros Hq. unfold get_or_404. rewrite Hq. reflexivity.
Qed.

Lemma query_get_id (i : Z) (db : Store) (p : Product) :
  query_get i db = Some p -> id p = i /\ In p db.
Proof.
  unfold query_get. intros Hf. apply find_some in Hf.
  destruct Hf as [Hin Heq]. split; [lia | exact Hin].
Qed.

(** ** Reading and deleting *)

Lemma get_product_missing (i : Z) (db : Store) :
  query_get i db = None -> serve (GetProduct i) db = (db, not_found).
Proof.
  intros Hq. unfold serve, route, respond, get_product, get_or_404.
  rewrite Hq. reflexivity.
Qed.

Lemma query_get_deleted (p : Product) (db : Store) :
  query_get (id p) (delete_row p db) = None.
Proof.
  unfold query_get, delete_row.
  induction db as [|q db IH]; cbn [filter find]; [reflexivity|].
  destruct (id q =? id p) eqn:E; cbn [negb]; [exact IH|].
  cbn [find]. rewrite E. exact IH.
Qed.

(** A product that was deleted is no longer found. *)
Lemma delete_then_get (i : Z) (db : Store) (p : Product) :
  query_get i db = Some p ->
  serve (GetProduct i) (fst (serve (DeleteProduct i) db))
  = (delete_row p db, not_found).
Proof.
  intros Hq. destruct (query_get_id i db p Hq) as [Hid _].
  unfold serve at 2. unfold route, respond, delete_product.
  rewrite (get_or_404_found i db p Hq). cbn [bind ret fst].
  apply get_product_missing. rewrite <- Hid. apply query_get_deleted.
Qed.

(** ** The sell operation *)

Lemma stock_is_no_attribute (p : Product) :
  py_getattr p "stock" = raise AttributeError.
Proof. reflexivity. Qed.

Lemma to_dict_keys (p : Product) :
  exists kvs, to_dict p = JDict kvs /\ map fst kvs = columns.
Proof.
  eexists. split; reflexivity.
Qed.

Lemma sell_product_raises (i : Z) (data : json) (db : Store) (p : Product) :
  query_get i db = Some p ->
  sell_product i data db = raise AttributeError.
Proof.
  intros Hq. unfold sell_product.
  rewrite (get_or_404_found _ _ _ Hq). cbn [bind ret].
  destruct data; cbn [py_get bind raise]; try reflexivity.
  destruct (lookup "quantity" kvs); reflexivity.
Qed.

Lemma sell_product_found (i : Z) (data : json) (db : Store) (p : Product) :
  query_get i db = Some p ->
  respond (sell_product i data) db
  = (db, jsonify (error_body "An error occurred") 500).
Proof.
  intros Hq.
  rewrite (respond_raise _ _ _ (sell_product_raises i data db p Hq)).
  reflexivity.
Qed.

(** C3: a product has exactly the fields id, barcode, name and price, also
    when serialized; reading its stock raises an attribute error, so for
    every stored product and every request body the sell operation ends in
    the generic handler with status 500 and the table as it was: it never
    succeeds and never answers the 400 of insufficient stock. *)
Theorem sell_product_always_500 (i : Z) (data : json) (db : Store) (p : Product) :
  query_get i db = Some p ->
  columns = ["id"; "barcode"; "name"; "price"]
  /\ (exists kvs, to_dict p = JDict kvs /\ map fst kvs = columns
                  /\ lookup "stock" kvs = None)
  /\ py_getattr p "stock" = raise AttributeError
  /\ respond (sell_product i data) db
     = (db, jsonify (error_body "An error occurred") 500).
Proof.
  intros Hq. split; [reflexivity|]. split.
  - eexists. repeat split; reflexivity.
  - split; [apply stock_is_no_attribute|].
    exact (sell_product_found i data db p Hq).
Qed.

Lemma sell_product_missing (i : Z) (data : json) (db : Store) :
  query_get i db = None ->
  respond (sell_product i data) db = (db, jsonify (error_body "Resource not found") 404).
Proof.
  intros Hq. unfold respond, sell_product, get_or_404. rewrite Hq. reflexivity.
Qed.

(** No request to the sell route is answered with 200 or with 400. *)
Lemma sell_product_status (i : Z) (data : json) (db : Store) :
  fst (respond (sell_product i data) db) = db
  /\ (status (snd (respond (sell_product i data) db)) = 500
      \/ status (snd (respond (sell_product i data) db)) = 404).
Proof.
  destruct (query_get i db) as [p|] eqn:Hq.
  - rewrite (sell_product_found i data db p Hq). auto.
  - rewrite (sell_product_missing i data db Hq). auto.
Qed.

(** ** Creating a product *)

Lemma add_product_missing (kvs : list (string * json)) (db : Store) :
  absent_or_falsy kvs "barcode" || absent_or_falsy kvs "name"
  || absent_or_falsy kvs "price" = true ->
  add_product (JDict kvs) db = ret (db, missing_fields).
Proof.
  unfold absent_or_falsy, add_product, py_get. intros Hm.
  destruct (lookup "barcode" kvs) as [b|]; cbn [bind ret truthy negb];
    [destruct (truthy b); cbn [negb] | ]; try reflexivity.
  destruct (lookup "name" kvs) as [n|]; cbn [bind ret truthy negb];
    [destruct (truthy n); cbn [negb] | ]; try reflexivity.
  destruct (lookup "price" kvs) as [p|]; cbn [bind ret truthy negb];
    [destruct (truthy p); cbn [negb] | ]; try reflexivity.
  discriminate Hm.
Qed.

Lemma add_product_present (kvs : list (string * json)) (db : Store) (b n p : json) :
  lookup "barcode" kvs = Some b -> truthy b = true ->
  lookup "name" kvs = Some n -> truthy n = true ->
  lookup "price" kvs = Some p -> truthy p = true ->
  add_product (JDict kvs) db =
  ('(db', product) <- insert_product b n p db ;;
   ret (db', jsonify (to_dict product) 201)).
Proof.
  intros Hb Tb Hn Tn Hp Tp. unfold add_product, py_get, py_getitem.
  rewrite Hb, Hn, Hp. cbn [bind ret]. rewrite Tb, Tn, Tp. reflexivity.
Qed.

Lemma add_product_protected_omitted (u : json) (kvs : list (string * json)) (db : Store) :
  py_getitem u "username" = ret (JStr "admin") ->
  lookup "barcode" kvs = None \/ lookup "name" kvs = None
  \/ lookup "price" kvs = None ->
  add_product_protected u (JDict kvs) db = raise KeyError.
Proof.
  intros Hu Hm. unfold add_product_protected. rewrite Hu.
  cbn [bind ret py_eq_str String.eqb Ascii.eqb Bool.eqb negb py_getitem].
  destruct (lookup "barcode" kvs); [|reflexivity].
  destruct (lookup "name" kvs); [|reflexivity].
  destruct (lookup "price" kvs); [|reflexivity].
  destruct Hm as [H|[H|H]]; discriminate H.
Qed.

(** C10: the protected create does not check that the fields are present.
    For every request with a token signed by the application that carries
    the admin identity, and a body that omits barcode, name or price, the
    missing key raises while the product is built: the answer is the
    generic 500 and nothing is persisted, where the unprotected create
    answers the 400 of a missing field for the same body. *)
Theorem protected_create_omitted_field
  (t : access_token) (kvs : list (string * json)) (db : Store) :
  signing_key t = JWT_SECRET_KEY ->
  identity t = JDict [("username", JStr "admin")] ->
  lookup "barcode" kvs = None \/ lookup "name" kvs = None
  \/ lookup "price" kvs = None ->
  serve (PostProductProtected (Some t) (JDict kvs)) db
  = (db, jsonify (error_body "An error occurred") 500)
  /\ add_product_protected (identity t) (JDict kvs) db = raise KeyError
  /\ serve (PostProduct (JDict kvs)) db = (db, missing_fields).
Proof.
  intros Hk Hi Hm.
  assert (Hr : add_product_protected (identity t) (JDict kvs) db = raise KeyError).
  { apply add_product_protected_omitted; [rewrite Hi; reflexivity | exact Hm]. }
  split; [|split; [exact Hr|]].
  - unfold serve, route, jwt_required, respond. rewrite Hk, String.eqb_refl, Hr.
    reflexivity.
  - unfold serve, route. apply respond_return, add_product_missing.
    unfold absent_or_falsy.
    destruct Hm as [H|[H|H]]; rewrite H; cbn [orb];
      rewrite ?orb_true_r; reflexivity.
Qed.

Lemma bind_real_number (p : json) (f : spec_float) :
  json_number p = Some f -> bind_real p = ret f.
Proof.
  destruct p; cbn [json_number]; try discriminate.
  - unfold bind_real, to_float.
    destruct (float_of_int z) as [e|g]; [discriminate|].
    destruct g; intros H; inversion H; subst; reflexivity.
  - destruct f0 as [[|]| | |]; intros H; inversion H; subst; reflexivity.
Qed.

Lemma insert_product_typed (b n : string) (p : json) (f : spec_float) (db : Store) :
  json_number p = Some f ->
  insert_product (JStr b) (JStr n) p db =
  if existsb (String.eqb b) (barcodes db) then raise IntegrityError
  else ret (db ++ [mkProduct (next_id db) b n f], mkProduct (next_id db) b n f).
Proof.
  intros Hp. unfold insert_product. cbn [bind_text bind ret].
  rewrite (bind_real_number p f Hp). reflexivity.
Qed.

(** Whatever the fields are, a barcode that is already stored is refused. *)
Lemma insert_product_duplicate (b : string) (n p : json) (db : Store) :
  In b (barcodes db) ->
  exists e, insert_product (JStr b) n p db = raise e.
Proof.
  intros Hin. unfold insert_product. cbn [bind_text bind ret].
  destruct (bind_text n) as [e|n']; [eexists; reflexivity|]. cbn [bind].
  destruct (bind_real p) as [e|p']; [eexists; reflexivity|]. cbn [bind].
  assert (Hex : existsb (String.eqb b) (barcodes db) = true).
  { apply existsb_exists. exists b. split; [exact Hin | apply String.eqb_refl]. }
  rewrite Hex. eexists; reflexivity.
Qed.

(** C4, amended: a create whose body leaves any of barcode, name or price
    absent or falsy (a price of 0 included) is answered 400 with the
    missing-field error and the table is unchanged.  Otherwise, when
    barcode and name are strings and price is a number, the create is
    answered 201 with a body that echoes them and the row is appended,
    provided no stored product has the barcode; when one has, the answer is
    the generic 500 and the table is unchanged. *)
Theorem add_product_validation (kvs : list (string * json)) (db : Store) :
  (absent_or_falsy kvs "barcode" || absent_or_falsy kvs "name"
   || absent_or_falsy kvs "price" = true ->
   serve (PostProduct (JDict kvs)) db = (db, missing_fields))
  /\
  (absent_or_falsy kvs "barcode" || absent_or_falsy kvs "name"
   || absent_or_falsy kvs "price" = false ->
   forall (b n : string) (p : json) (f : spec_float),
   lookup "barcode" kvs = Some (JStr b) ->
   lookup "name" kvs = Some (JStr n) ->
   lookup "price" kvs = Some p ->
   json_number p = Some f ->
   serve (PostProduct (JDict kvs)) db =
   if existsb (String.eqb b) (barcodes db) then (db, generic_error)
   else (db ++ [mkProduct (next_id db) b n f],
         jsonify (JDict [("id", JInt (next_id db)); ("barcode", JStr b);
                         ("name", JStr n); ("price", JFloat f)]) 201)).
Proof.
  split.
  - intros Hm. unfold serve, route.
    apply respond_return, add_product_missing, Hm.
  - intros Hm b n p f Hb Hn Hp Hf.
    unfold absent_or_falsy in Hm. rewrite Hb, Hn, Hp in Hm.
    apply orb_false_elim in Hm. destruct Hm as [Hm Tp].
    apply orb_false_elim in Hm. destruct Hm as [Tb Tn].
    apply negb_false_iff in Tb, Tn, Tp.
    unfold serve, route, respond.
    rewrite (add_product_present kvs db _ _ _ Hb Tb Hn Tn Hp Tp).
    rewrite (insert_product_typed b n p f db Hf).
    destruct (existsb (String.eqb b) (barcodes db)); reflexivity.
Qed.

(** ** The constraints of the table are kept by every request *)

Lemma le_fold_max (x : Z) (l : list Z) :
  In x l -> x <= fold_right Z.max 0 l.
Proof.
  induction l as [|y l IH]; cbn [In fold_right]; intros Hin; [contradiction|].
  destruct Hin as [->|Hin]; [lia | specialize (IH Hin); lia].
Qed.

Lemma next_id_fresh (db : Store) : ~ In (next_id db) (map id db).
Proof.
  intros Hin. apply le_fold_max in Hin. unfold next_id in Hin. lia.
Qed.

Lemma NoDup_snoc {A} (l : list A) (x : A) :
  NoDup l -> ~ In x l -> NoDup (l ++ [x]).
Proof.
  induction l as [|y l IH]; cbn [app]; intros Hnd Hx.
  - constructor; [intros [] | constructor].
  - inversion Hnd as [|? ? Hy Hl]; subst. constructor.
    + rewrite in_app_iff. intros [H|[H|[]]]; [contradiction | subst].
      apply Hx. left. reflexivity.
    + apply IH; [exact Hl | intros H; apply Hx; right; exact H].
Qed.

Lemma NoDup_map_filter {A B} (f : A -> B) (g : A -> bool) (l : list A) :
  NoDup (map f l) -> NoDup (map f (filter g l)).
Proof.
  induction l as [|a l IH]; cbn [map filter]; intros Hnd; [constructor|].
  inversion Hnd as [|? ? Ha Hl]; subst.
  destruct (g a); cbn [map]; [constructor|]; auto.
  intros Hin. apply Ha. apply in_map_iff in Hin.
  destruct Hin as [x [Hx Hin]]. apply filter_In in Hin.
  apply in_map_iff. exists x. tauto.
Qed.

Lemma NoDup_map_eq {A B} (f : A -> B) (l : list A) (a b : A) :
  NoDup (map f l) -> In a l -> In b l -> f a = f b -> a = b.
Proof.
  induction l as [|x l IH]; cbn [map In]; intros Hnd Ha Hb Hf; [contradiction|].
  inversion Hnd as [|? ? Hx Hl]; subst.
  destruct Ha as [->|Ha], Hb as [->|Hb]; auto.
  - exfalso. apply Hx. rewrite Hf. apply in_map. exact Hb.
  - exfalso. apply Hx. rewrite <- Hf. apply in_map. exact Ha.
Qed.

Lemma replace_row_ids (row : Product) (db : Store) :
  map id (replace_row row db) = map id db.
Proof.
  unfold replace_row. rewrite map_map. apply map_ext_in. intros q _.
  destruct (id q =? id row) eqn:E; [lia | reflexivity].
Qed.

Lemma replace_row_barcodes (p row : Product) (db : Store) :
  NoDup (map id db) -> In p db ->
  id row = id p -> barcode row = barcode p ->
  barcodes (replace_row row db) = barcodes db.
Proof.
  intros Hnd Hin Hid Hb. unfold barcodes, replace_row.
  rewrite map_map. apply map_ext_in. intros q Hq.
  destruct (id q =? id row) eqn:E; [|reflexivity].
  assert (q = p) as -> by (apply (NoDup_map_eq id db); auto; lia).
  exact Hb.
Qed.

Lemma insert_product_ok (b n p : json) (db db' : Store) (row : Product) :
  insert_product b n p db = inr (db', row) -> store_ok db -> store_ok db'.
Proof.
  unfold insert_product. intros H [Hid Hbc].
  destruct (bind_text b) as [|b']; [discriminate|]. cbn [bind] in H.
  destruct (bind_text n) as [|n']; [discriminate|]. cbn [bind] in H.
  destruct (bind_real p) as [|p']; [discriminate|]. cbn [bind] in H.
  destruct (existsb (String.eqb b') (barcodes db)) eqn:E; [discriminate|].
  inversion H; subst; clear H. unfold store_ok, barcodes.
  rewrite !map_app. cbn [map id barcode]. split.
  - apply NoDup_snoc; [exact Hid | apply next_id_fresh].
  - apply NoDup_snoc; [exact Hbc|]. intros Hin.
    assert (existsb (String.eqb b') (barcodes db) = true); [|congruence].
    apply existsb_exists. exists b'. split; [exact Hin | apply String.eqb_refl].
Qed.

Lemma update_columns_ok (p : Product) (n pr : json) (db db' : Store) (row : Product) :
  update_columns p n pr db = inr (db', row) ->
  In p db -> store_ok db -> store_ok db'.
Proof.
  unfold update_columns. intros H Hin [Hid Hbc].
  destruct (bind_text n) as [|n']; [discriminate|]. cbn [bind] in H.
  destruct (bind_real pr) as [|p']; [discriminate|]. cbn [bind] in H.
  inversion H; subst; clear H. unfold store_ok. split.
  - rewrite replace_row_ids. exact Hid.
  - rewrite (replace_row_barcodes p); auto.
Qed.

Lemma delete_row_ok (p : Product) (db : Store) :
  store_ok db -> store_ok (delete_row p db).
Proof.
  intros [Hid Hbc]. unfold store_ok, barcodes, delete_row.
  split; apply NoDup_map_filter; assumption.
Qed.

(** Taking a handler apart along its binds and branches. *)
Ltac run_handler H :=
  repeat match type of H with
    | bind ?m _ = _ =>
        let E := fresh "E" in
        destruct m eqn:E; cbn [bind] in H; [discriminate H|]
    | (if ?c then _ else _) = _ => destruct c eqn:?
    | (let '(_, _) := ?x in _) = _ => destruct x
    | ret _ = inr _ => unfold ret in H
    | raise _ = inr _ => discriminate H
    | inr _ = inr _ => inversion H; subst; clear H
    end.

Lemma create_ok (u : option json) (data : json) (db db' : Store) (r : Response) :
  match u with
  | None => add_product data db
  | Some v => add_product_protected v data db
  end = inr (db', r) ->
  store_ok db -> store_ok db'.
Proof.
  intros H Hok. destruct u as [v|].
  - unfold add_product_protected in H. run_handler H; auto.
    eapply insert_product_ok; eauto.
  - unfold add_product in H. run_handler H; auto.
    eapply insert_product_ok; eauto.
Qed.

Lemma route_ok (r : request) (db db' : Store) (resp : Response) :
  route r db = inr (db', resp) -> store_ok db -> store_ok db'.
Proof.
  intros H Hok. destruct r; cbn [route] in H.
  - exact (create_ok None data db db' resp H Hok).
  - unfold jwt_required in H. destruct auth as [t|]; run_handler H; auto.
    exact (create_ok (Some (identity t)) data db db' resp H Hok).
  - unfold get_product in H. run_handler H; auto.
  - unfold update_product in H. run_handler H.
    eapply update_columns_ok; eauto.
    unfold get_or_404 in E. destruct (query_get i db) eqn:Hq; [|discriminate].
    inversion E; subst. apply (query_get_id i db p Hq).
  - unfold delete_product in H. run_handler H. apply delete_row_ok, Hok.
  - unfold search_products in H. destruct query; run_handler H; auto.
  - unfold get_products in H. run_handler H; auto.
  - unfold sell_product in H. run_handler H; auto.
    match goal with
    | E : set_stock_commit _ _ _ = _ |- _ =>
        unfold set_stock_commit in E; run_handler E
    end.
    exact Hok.
  - unfold login in H. run_handler H; auto.
Qed.

Lemma serve_ok (r : request) (db : Store) :
  store_ok db -> store_ok (fst (serve r db)).
Proof.
  intros Hok. unfold serve, respond.
  destruct (route r db) as [e|[db' resp]] eqn:E.
  - destruct e; exact Hok.
  - cbn [fst]. exact (route_ok r db db' resp E Hok).
Qed.

Lemma reachable_ok (db : Store) : reachable db -> store_ok db.
Proof.
  induction 1 as [|db r _ IH].
  - split; constructor.
  - apply serve_ok, IH.
Qed.

Lemma create_duplicate (u : option json) (kvs : list (string * json)) (b : string)
  (db db' : Store) (r : Response) :
  lookup "barcode" kvs = Some (JStr b) ->
  In b (barcodes db) ->
  match u with
  | None => add_product (JDict kvs) db
  | Some v => add_product_protected v (JDict kvs) db
  end = inr (db', r) ->
  db' = db /\ status r <> 201.
Proof.
  intros Hb Hin H.
  assert (Hdup : forall n p row, insert_product (JStr b) n p db <> inr (db', row)).
  { intros n p row Hi. destruct (insert_product_duplicate b n p db Hin) as [e He].
    rewrite He in Hi. discriminate Hi. }
  destruct u as [v|].
  - unfold add_product_protected, py_getitem in H. rewrite Hb in H.
    run_handler H; [split; [reflexivity | discriminate] | ].
    match goal with E : ret (JStr b) = inr _ |- _ => inversion E; subst end.
    exfalso. eapply Hdup; eauto.
  - unfold add_product, py_get, py_getitem in H. rewrite Hb in H.
    run_handler H; try (split; [reflexivity | discriminate]).
    match goal with E : ret (JStr b) = inr _ |- _ => inversion E; subst end.
    exfalso. eapply Hdup; eauto.
Qed.

(** C5: barcodes are unique in every table the application can reach: no
    two stored products share a barcode; and a create, unprotected or
    protected, whose barcode is that of a stored product fails: it is not
    answered 201 and the table is left as it was. *)
Theorem barcode_unique_invariant (db : Store) :
  reachable db ->
  NoDup (barcodes db)
  /\ (forall p q, In p db -> In q db -> barcode p = barcode q -> p = q)
  /\ (forall (r : request) (kvs : list (string * json)) (b : string),
       r = PostProduct (JDict kvs)
       \/ (exists auth, r = PostProductProtected auth (JDict kvs)) ->
       lookup "barcode" kvs = Some (JStr b) ->
       In b (barcodes db) ->
       fst (serve r db) = db /\ status (snd (serve r db)) <> 201).
Proof.
  intros Hr. destruct (reachable_ok db Hr) as [Hid Hbc].
  split; [exact Hbc|]. split.
  - intros p q Hp Hq Heq. exact (NoDup_map_eq barcode db p q Hbc Hp Hq Heq).
  - intros r kvs b Hreq Hb Hin. unfold serve, respond.
    destruct (route r db) as [e|[db' resp]] eqn:E.
    + destruct e; cbn [fst snd]; split; try reflexivity; discriminate.
    + cbn [fst snd]. destruct Hreq as [->|[auth ->]]; cbn [route] in E.
      * exact (create_duplicate None kvs b db db' resp Hb Hin E).
      * unfold jwt_required in E. destruct auth as [t|].
        -- destruct (signing_key t =? JWT_SECRET_KEY)%string.
           ++ exact (create_duplicate (Some (identity t)) kvs b db db' resp Hb Hin E).
           ++ inversion E; subst. split; [reflexivity | discriminate].
        -- inversion E; subst. split; [reflexivity | discriminate].
Qed.

(** ** Listing with pagination *)

Lemma page_size_of_nonneg (size : Z) : 0 <= page_size_of size.
Proof. unfold page_size_of. destruct (size <? 0) eqn:E; lia. Qed.

Lemma paginate_fits (pg size : Z) (db : Store) :
  page_fits pg size ->
  exists r, paginate pg size db = inr r
            /\ items r = firstn (Z.to_nat (page_size_of size))
                           (skipn (Z.to_nat ((Z.max 1 pg - 1) * page_size_of size)) db)
            /\ page r = Z.max 1 pg
            /\ per_page r = page_size_of size.
Proof.
  intros [Hs Ho]. unfold paginate. fold (page_size_of size).
  replace (if pg <? 1 then 1 else pg) with (Z.max 1 pg)
    by (destruct (pg <? 1) eqn:E; lia).
  destruct (page_size_of size <? 2 ^ 63) eqn:E1; [|lia].
  destruct ((Z.max 1 pg - 1) * page_size_of size <? 2 ^ 63) eqn:E2; [|lia].
  cbn [andb]. eexists. split; [reflexivity|]. repeat split.
Qed.

Lemma paginate_overflow (pg size : Z) (db : Store) :
  ~ page_fits pg size -> paginate pg size db = raise OverflowError.
Proof.
  intros Hn. unfold paginate. fold (page_size_of size).
  replace (if pg <? 1 then 1 else pg) with (Z.max 1 pg)
    by (destruct (pg <? 1) eqn:E; lia).
  destruct (page_size_of size <? 2 ^ 63) eqn:E1; [|reflexivity].
  destruct ((Z.max 1 pg - 1) * page_size_of size <? 2 ^ 63) eqn:E2; [|reflexivity].
  exfalso. apply Hn. split; lia.
Qed.

Lemma paginate_below_one (pg size : Z) (db : Store) :
  pg < 1 -> paginate pg size db = paginate 1 size db.
Proof.
  intros Hpg. unfold paginate.
  destruct (pg <? 1) eqn:E; [reflexivity | lia].
Qed.

(** The shortcut taken on a short first page agrees with counting. *)
Lemma paginate_total (pg size : Z) (db : Store) (r : Pagination) :
  paginate pg size db = inr r ->
  total r = Z.of_nat (List.length db).
Proof.
  unfold paginate.
  set (pg' := if pg <? 1 then 1 else pg).
  set (size' := if size <? 0 then 20 else size).
  assert (Hs : 0 <= size') by (subst size'; destruct (size <? 0) eqn:E; lia).
  destruct ((size' <? 2 ^ 63) && ((pg' - 1) * size' <? 2 ^ 63)); [|discriminate].
  intros H. inversion H; subst r; clear H. cbn [total].
  destruct (pg' =? 1) eqn:E1; cbn [andb]; [|reflexivity].
  apply Z.eqb_eq in E1. rewrite E1.
  replace ((1 - 1) * size') with 0 by lia. cbn [Z.to_nat skipn].
  rewrite length_firstn.
  destruct (Z.of_nat (Nat.min (Z.to_nat size') (List.length db)) <? size') eqn:E2;
    [|reflexivity].
  apply Z.ltb_lt in E2. f_equal. lia.
Qed.

Lemma paginate_pages (pg size : Z) (db : Store) (r : Pagination) :
  paginate pg size db = inr r ->
  pages r = page_count size db.
Proof.
  intros H. unfold pages, page_count. rewrite (paginate_total pg size db r H).
  assert (Hpp : per_page r = page_size_of size).
  { unfold paginate in H. fold (page_size_of size) in H.
    destruct (_ && _) in H; [|discriminate H]. inversion H. reflexivity. }
  rewrite Hpp. reflexivity.
Qed.

Lemma page_count_beyond (pg size : Z) (db : Store) :
  out_of_range pg size db ->
  firstn (Z.to_nat (page_size_of size))
    (skipn (Z.to_nat ((Z.max 1 pg - 1) * page_size_of size)) db) = [].
Proof.
  unfold out_of_range, page_count.
  pose proof (page_size_of_nonneg size) as Hs.
  set (s := page_size_of size) in *.
  destruct (s =? 0) eqn:E0.
  - apply Z.eqb_eq in E0. rewrite E0. intros _. reflexivity.
  - apply Z.eqb_neq in E0. intros Hlt.
    assert (Hpg : 1 <= pg).
    { assert (0 <= (Z.of_nat (List.length db) + s - 1) / s); [|lia].
      apply Z.div_pos; lia. }
    assert (Hle : Z.of_nat (List.length db) <= (pg - 1) * s).
    { destruct (Z_le_gt_dec (Z.of_nat (List.length db)) ((pg - 1) * s))
        as [Hle|Hgt]; [exact Hle | exfalso].
      assert (pg <= (Z.of_nat (List.length db) + s - 1) / s); [|lia].
      apply Z.div_le_lower_bound; lia. }
    replace (Z.max 1 pg) with pg by lia.
    rewrite skipn_all2; [apply firstn_nil | lia].
Qed.

Lemma get_products_fits (pa ppa : option Z) (db : Store) :
  page_fits (args_get_int pa 1) (args_get_int ppa 10) ->
  serve (GetProducts pa ppa) db =
  (db, jsonify
         (JDict [("products",
                  JList (map to_dict
                    (firstn (Z.to_nat (page_size_of (args_get_int ppa 10)))
                       (skipn (Z.to_nat ((Z.max 1 (args_get_int pa 1) - 1)
                                         * page_size_of (args_get_int ppa 10)))
                          db))));
                 ("total", JInt (Z.of_nat (List.length db)));
                 ("pages", JInt (page_count (args_get_int ppa 10) db));
                 ("current_page", JInt (Z.max 1 (args_get_int pa 1)))]) 200).
Proof.
  intros Hfit.
  destruct (paginate_fits _ _ db Hfit) as [r [Hr [Hi [Hp _]]]].
  unfold serve, route, respond, get_products. rewrite Hr. cbn [bind ret].
  rewrite (paginate_total _ _ _ _ Hr), (paginate_pages _ _ _ _ Hr), Hi, Hp.
  reflexivity.
Qed.

Lemma get_products_overflow (pa ppa : option Z) (db : Store) :
  ~ page_fits (args_get_int pa 1) (args_get_int ppa 10) ->
  serve (GetProducts pa ppa) db = (db, generic_error).
Proof.
  intros Hn. unfold serve, route, respond, get_products.
  rewrite (paginate_overflow _ _ db Hn). reflexivity.
Qed.

(** C6, amended: listing uses page 1 and 10 per page when the parameters
    are absent and never changes the table.  When the page size and the
    offset of the page are below 2^63 it is answered 200; a page below 1 is
    served as page 1; a page beyond the last one gives an empty list of
    items, not an error; and with exactly three stored products, page 2
    with 1 per page gives exactly one item, the second product, with total
    3, pages 3 and current page 2.  When the page size or the offset
    reaches 2^63 the answer is the generic 500. *)
Theorem get_products_pagination (db : Store) :
  (serve (GetProducts None None) db = serve (GetProducts (Some 1) (Some 10)) db
   /\ forall pg size,
       serve (GetProducts None (Some size)) db
       = serve (GetProducts (Some 1) (Some size)) db
       /\ serve (GetProducts (Some pg) None) db
          = serve (GetProducts (Some pg) (Some 10)) db)
  /\ (forall pa ppa, fst (serve (GetProducts pa ppa) db) = db)
  /\ (forall pg size,
       page_fits pg size ->
       status (snd (serve (GetProducts (Some pg) (Some size)) db)) = 200)
  /\ (forall pg size,
       ~ page_fits pg size ->
       serve (GetProducts (Some pg) (Some size)) db = (db, generic_error))
  /\ (forall pg size,
       pg < 1 ->
       serve (GetProducts (Some pg) (Some size)) db
       = serve (GetProducts (Some 1) (Some size)) db)
  /\ (forall pg size,
       page_fits pg size ->
       out_of_range pg size db ->
       serve (GetProducts (Some pg) (Some size)) db =
       (db, jsonify (JDict [("products", JList []);
                            ("total", JInt (Z.of_nat (List.length db)));
                            ("pages", JInt (page_count size db));
                            ("current_page", JInt (Z.max 1 pg))]) 200))
  /\ (List.length db = 3%nat ->
       exists p, nth_error db 1 = Some p
       /\ serve (GetProducts (Some 2) (Some 1)) db =
          (db, jsonify (JDict [("products", JList [to_dict p]);
                               ("total", JInt 3);
                               ("pages", JInt 3);
                               ("current_page", JInt 2)]) 200)).
Proof.
  split; [split; [reflexivity | intros pg size; split; reflexivity]|].
  split; [|split; [|split; [|split; [|split]]]].
  - intros pa ppa. unfold serve, route, respond, get_products.
    destruct (paginate _ _ db) as [[]|r]; reflexivity.
  - intros pg size Hfit.
    rewrite (get_products_fits (Some pg) (Some size) db Hfit). reflexivity.
  - intros pg size Hn. exact (get_products_overflow (Some pg) (Some size) db Hn).
  - intros pg size Hpg. unfold serve, route, respond, get_products.
    cbn [args_get_int]. rewrite (paginate_below_one pg size db Hpg). reflexivity.
  - intros pg size Hfit Hout.
    rewrite (get_products_fits (Some pg) (Some size) db Hfit).
    cbn [args_get_int]. rewrite (page_count_beyond pg size db Hout). reflexivity.
  - intros Hlen.
    destruct db as [|a [|b [|c [|d db]]]]; try discriminate Hlen.
    exists b. split; reflexivity.
Qed.

(** ** Updating a product *)

Lemma query_get_replace (row p : Product) (db : Store) :
  query_get (id row) db = Some p ->
  query_get (id row) (replace_row row db) = Some row.
Proof.
  unfold query_get, replace_row.
  induction db as [|q db IH]; cbn [find map]; intros H; [discriminate|].
  destruct (id q =? id row) eqn:E.
  - rewrite Z.eqb_refl. reflexivity.
  - rewrite E. apply IH, H.
Qed.

Lemma query_get_replace_other (row : Product) (j : Z) (db : Store) :
  j <> id row ->
  query_get j (replace_row row db) = query_get j db.
Proof.
  unfold query_get, replace_row. intros Hj.
  induction db as [|q db IH]; cbn [find map]; [reflexivity|].
  destruct (id q =? id row) eqn:E.
  - apply Z.eqb_eq in E.
    destruct (id row =? j) eqn:E1; [lia|]. destruct (id q =? j) eqn:E2; [lia|].
    exact IH.
  - destruct (id q =? j); [reflexivity | exact IH].
Qed.

Lemma bind_real_float (f g : spec_float) :
  bind_real (JFloat f) = inr g -> g = f.
Proof.
  destruct f; cbn; intros H; inversion H; reflexivity.
Qed.

Lemma update_columns_returns (p : Product) (n pr : json) (db db' : Store)
  (row : Product) :
  update_columns p n pr db = inr (db', row) ->
  exists n' pr',
    bind_text n = inr n' /\ bind_real pr = inr pr'
    /\ row = mkProduct (id p) (barcode p) n' pr'
    /\ db' = replace_row row db.
Proof.
  unfold update_columns. intros H. run_handler H.
  do 2 eexists. repeat split; reflexivity.
Qed.

Lemma update_product_returns (i : Z) (data : json) (db db' : Store)
  (p : Product) (r : Response) :
  query_get i db = Some p ->
  update_product i data db = inr (db', r) ->
  exists n' pr',
    let row := mkProduct (id p) (barcode p) n' pr' in
    db' = replace_row row db /\ r = jsonify (to_dict row) 200
    /\ (omits data "name" -> n' = name p)
    /\ (omits data "price" -> pr' = price p).
Proof.
  intros Hq H. unfold update_product in H.
  rewrite (get_or_404_found i db p Hq) in H. cbn [bind ret] in H.
  destruct data; cbn [py_get bind raise] in H; try discriminate H.
  run_handler H.
  match goal with
  | E : update_columns _ _ _ _ = _ |- _ =>
      destruct (update_columns_returns _ _ _ _ _ _ E)
        as [n' [pr' [Hn' [Hpr' [-> ->]]]]]
  end.
  exists n', pr'. cbn zeta. cbn [omits].
  split; [reflexivity|]. split; [reflexivity|]. split; intros Ho.
  - rewrite Ho in *. match goal with
    | E : ret _ = inr _ |- _ => inversion E; subst
    end. cbn [bind_text] in Hn'. inversion Hn'. reflexivity.
  - rewrite Ho in *. match goal with
    | E : ret (JFloat _) = inr _ |- _ => inversion E; subst
    end. exact (bind_real_float _ _ Hpr').
Qed.

(** C7: updating a stored product leaves what the body does not carry as
    it was: the product keeps its name when the body omits name and its
    price when the body omits price, and whatever the body holds it keeps
    its id and its barcode; every other product is untouched. *)
Theorem update_product_frame (i : Z) (data : json) (db : Store) (p : Product) :
  query_get i db = Some p ->
  exists p',
    query_get i (fst (serve (PutProduct i data) db)) = Some p'
    /\ id p' = id p
    /\ barcode p' = barcode p
    /\ (omits data "name" -> name p' = name p)
    /\ (omits data "price" -> price p' = price p)
    /\ (status (snd (serve (PutProduct i data) db)) = 200 ->
        content (snd (serve (PutProduct i data) db)) = Json (to_dict p'))
    /\ (forall j, j <> i ->
        query_get j (fst (serve (PutProduct i data) db)) = query_get j db).
Proof.
  intros Hq. destruct (query_get_id i db p Hq) as [Hid _].
  unfold serve, route, respond.
  destruct (update_product i data db) as [e|[db' r]] eqn:E.
  - exists p. destruct e; cbn [fst snd]; repeat split; auto; discriminate.
  - destruct (update_product_returns i data db db' p r Hq E)
      as [n' [pr' [Hdb [Hr [Hn Hp]]]]]. cbn zeta in *.
    exists (mkProduct (id p) (barcode p) n' pr'). cbn [fst snd]. subst db' r.
    repeat split; auto.
    + rewrite <- Hid in Hq |- *.
      exact (query_get_replace (mkProduct (id p) (barcode p) n' pr') p db Hq).
    + intros j Hj. apply query_get_replace_other. cbn [id]. lia.
Qed.

(** ** Login *)

Lemma py_eq_str_true (v : json) (s : string) :
  py_eq_str v s = true <-> v = JStr s.
Proof.
  destruct v; cbn [py_eq_str]; split; intros H; try discriminate H.
  - apply String.eqb_eq in H. congruence.
  - inversion H. apply String.eqb_refl.
Qed.

Lemma login_check (kvs : list (string * json)) (db : Store) :
  login (JDict kvs) db =
  let u := match lookup "username" kvs with Some v => v | None => JNull end in
  let w := match lookup "password" kvs with Some v => v | None => JNull end in
  if py_eq_str u "admin" && py_eq_str w "password"
  then ret (db, mkResponse 200
                  (AccessToken (create_access_token (JDict [("username", u)]))))
  else ret (db, invalid_credentials).
Proof.
  unfold login, py_get.
  destruct (lookup "username" kvs), (lookup "password" kvs); reflexivity.
Qed.

Lemma admin_pair_check (kvs : list (string * json)) :
  admin_pair kvs <->
  py_eq_str match lookup "username" kvs with Some v => v | None => JNull end "admin"
  && py_eq_str match lookup "password" kvs with Some v => v | None => JNull end
       "password" = true.
Proof.
  unfold admin_pair. rewrite andb_true_iff, !py_eq_str_true.
  destruct (lookup "username" kvs), (lookup "password" kvs);
    split; intros [H1 H2]; split; congruence.
Qed.

(** C8: login answers with an access token signed with the application's
    key and carrying the username exactly when the body holds the pair
    ("admin", "password"); for every other pair, an absent username or
    password included, it answers 401 with the invalid-credentials error. *)
Theorem login_credentials (kvs : list (string * json)) (db : Store) :
  (admin_pair kvs ->
   serve (Login (JDict kvs)) db =
   (db, mkResponse 200
          (AccessToken (mkToken JWT_SECRET_KEY (JDict [("username", JStr "admin")])))))
  /\ (~ admin_pair kvs ->
      serve (Login (JDict kvs)) db = (db, invalid_credentials))
  /\ ((exists t, content (snd (serve (Login (JDict kvs)) db)) = AccessToken t)
      <-> admin_pair kvs).
Proof.
  unfold serve, route, respond. rewrite login_check. cbn zeta.
  pose proof (admin_pair_check kvs) as Hc.
  destruct (py_eq_str _ "admin" && py_eq_str _ "password") eqn:E.
  - assert (Ha : admin_pair kvs) by (apply Hc; reflexivity).
    split; [|split].
    + intros _. destruct Ha as [Hu _]. rewrite Hu. reflexivity.
    + intros Hn. contradiction.
    + split; [intros _; exact Ha | intros _; eexists; reflexivity].
  - assert (Ha : ~ admin_pair kvs) by (rewrite Hc; discriminate).
    split; [|split].
    + intros H. contradiction.
    + intros _. reflexivity.
    + split; [intros [t Ht]; discriminate Ht | intros H; contradiction].
Qed.

(** ** Searching *)

Lemma like_percent_unfold (pat text : string) :
  like (String "%" pat) text =
  like pat text ||
  match text with
  | EmptyString => false
  | String _ text' => like (String "%" pat) text'
  end.
Proof. destruct text; reflexivity. Qed.

Lemma like_char_unfold (c d : ascii) (pat text : string) :
  (c =? "%")%char = false ->
  like (String c pat) (String d text) =
  ((c =? "_")%char || (to_lower c =? to_lower d)%char) && like pat text.
Proof. intros H. cbn [like]. rewrite H. reflexivity. Qed.

Lemma like_percent_all (text : string) : like "%" text = true.
Proof.
  induction text as [|d text IH]; [reflexivity|].
  rewrite like_percent_unfold, IH. apply orb_true_r.
Qed.





Lemma search_products_response (q : string) (db : Store) :
  serve (SearchProducts (Some q)) db =
  (db, jsonify (JList (map to_dict
         (filter (fun p => contains (name p) q || contains (barcode p) q)
                 db))) 200).
Proof. reflexivity. Qed.


End Properties.

(** * Further properties of the routes *)

Section Coverage.
Context {platform : Platform}.

(** ** How a request can change the table *)

Ltac run_handler H :=
  repeat match type of H with
    | bind ?m _ = _ =>
        let E := fresh "E" in
        destruct m eqn:E; cbn [bind] in H; [discriminate H|]
    | (if ?c then _ else _) = _ => destruct c eqn:?
    | (let '(_, _) := ?x in _) = _ => destruct x
    | ret _ = inr _ => unfold ret in H
    | raise _ = inr _ => discriminate H
    | inr _ = inr _ => inversion H; subst; clear H
    end.

Lemma insert_product_returns (b n p : json) (db db' : Store) (row : Product) :
  insert_product b n p db = inr (db', row) ->
  db' = db ++ [row] /\ id row = next_id db
  /\ bind_text b = inr (barcode row)
  /\ ~ In (barcode row) (barcodes db).
Proof.
  unfold insert_product. intros H. run_handler H. cbn [id barcode].
  repeat split; try reflexivity.
  intros Hin.
  match goal with
  | E : existsb _ _ = false |- _ =>
      rewrite (proj2 (existsb_exists _ _)) in E; [discriminate E|]
  end.
  eexists. split; [exact Hin | apply String.eqb_refl].
Qed.

(** A committed request leaves the table, appends one row, rewrites the
    name and price of one stored row, or deletes one stored row. *)
Lemma route_transition (r : request) (db db' : Store) (resp : Response) :
  route r db = inr (db', resp) ->
  (db' = db /\ status resp <> 201)
  \/ (is_create r /\ exists b n p row,
        insert_product b n p db = inr (db', row)
        /\ resp = jsonify (to_dict row) 201)
  \/ (exists i data p n pr row,
        r = PutProduct i data /\ query_get i db = Some p
        /\ update_columns p n pr db = inr (db', row)
        /\ resp = jsonify (to_dict row) 200)
  \/ (exists i p,
        r = DeleteProduct i /\ query_get i db = Some p
        /\ db' = delete_row p db /\ resp = product_deleted).
Proof.
  intros H. destruct r; cbn [route] in H.
  - unfold add_product in H. run_handler H;
      try (left; split; [reflexivity | discriminate]).
    right; left. split; [exact I|]. do 4 eexists. split; [eassumption | reflexivity].
  - unfold jwt_required in H. destruct auth as [t|]; run_handler H;
      try (left; split; [reflexivity | discriminate]).
    unfold add_product_protected in H. run_handler H;
      try (left; split; [reflexivity | discriminate]).
    right; left. split; [exact I|]. do 4 eexists. split; [eassumption | reflexivity].
  - unfold get_product in H. run_handler H. left; split; [reflexivity | discriminate].
  - unfold update_product in H. run_handler H.
    right; right; left.
    match goal with
    | E : get_or_404 _ _ = inr ?p |- _ =>
        unfold get_or_404 in E; destruct (query_get i db) as [p'|] eqn:Hq;
        [inversion E; subst p' | discriminate E]
    end.
    do 6 eexists. repeat split; eauto.
  - unfold delete_product in H. run_handler H.
    right; right; right.
    match goal with
    | E : get_or_404 _ _ = inr ?p |- _ =>
        unfold get_or_404 in E; destruct (query_get i db) as [p'|] eqn:Hq;
        [inversion E; subst p' | discriminate E]
    end.
    do 2 eexists. repeat split; eauto.
  - unfold search_products in H. destruct query; run_handler H.
    left; split; [reflexivity | discriminate].
  - unfold get_products in H. run_handler H.
    left; split; [reflexivity | discriminate].
  - unfold sell_product in H. run_handler H;
      try (left; split; [reflexivity | discriminate]).
    match goal with
    | E : set_stock_commit _ _ _ = _ |- _ =>
        unfold set_stock_commit in E; run_handler E
    end.
    left; split; [reflexivity | discriminate].
  - unfold login in H. run_handler H; left; split; try reflexivity; discriminate.
Qed.

Lemma serve_cases (r : request) (db : Store) :
  (exists e, route r db = inl e
             /\ serve r db = (db, if match e with NotFound => true | _ => false end
                                  then not_found else handle_exception e))
  \/ (exists db' resp, route r db = inr (db', resp) /\ serve r db = (db', resp)).
Proof.
  unfold serve. destruct (route r db) as [e|[db' resp]] eqn:E.
  - left. exists e. split; [reflexivity | exact (respond_raise _ _ _ E)].
  - right. exists db', resp. split; [reflexivity | exact (respond_return _ _ _ _ E)].
Qed.

(** ** Unknown ids *)

(** X1: for an id below 2^63 that no stored product has, reading, updating,
    deleting and selling are all answered 404 with the not-found body,
    whatever the request body is, and the table is left as it was. *)
Theorem unknown_id_404 (i : Z) (data : json) (db : Store) :
  i < 2 ^ 63 ->
  query_get i db = None ->
  serve (GetProduct i) db = (db, not_found)
  /\ serve (PutProduct i data) db = (db, not_found)
  /\ serve (DeleteProduct i) db = (db, not_found)
  /\ serve (SellProduct i data) db = (db, not_found).
Proof.
  intros _ Hq.
  unfold serve, route, respond, get_product, update_product, delete_product,
    sell_product, get_or_404.
  rewrite Hq. repeat split; reflexivity.
Qed.

(** ** Reading a stored product *)

Lemma query_get_member (db : Store) (p : Product) :
  NoDup (map id db) -> In p db -> query_get (id p) db = Some p.
Proof.
  unfold query_get. induction db as [|q db IH]; cbn [map In find];
    intros Hnd Hin; [contradiction|].
  inversion Hnd as [|? ? Hq Hdb]; subst.
  destruct Hin as [->|Hin]; [rewrite Z.eqb_refl; reflexivity|].
  destruct (id q =? id p) eqn:E; [|exact (IH Hdb Hin)].
  exfalso. apply Hq. apply Z.eqb_eq in E. rewrite E. apply in_map, Hin.
Qed.

(** X2: in every table the application can reach, each stored product is
    the one found under its id: reading that id is answered 200 with the
    product's own fields. *)
Theorem get_product_stored (db : Store) (p : Product) :
  reachable db -> In p db ->
  serve (GetProduct (id p)) db = (db, jsonify (to_dict p) 200).
Proof.
  intros Hr Hin. destruct (reachable_ok db Hr) as [Hid _].
  unfold serve, route, respond, get_product.
  rewrite (get_or_404_found _ _ _ (query_get_member db p Hid Hin)).
  reflexivity.
Qed.

(** ** Creating, then reading, deleting or creating again *)

Lemma create_committed (r : request) (db : Store) :
  is_create r ->
  status (snd (serve r db)) = 201 ->
  exists b n p row,
    route r db = inr (fst (serve r db), snd (serve r db))
    /\ insert_product b n p db = inr (fst (serve r db), row)
    /\ snd (serve r db) = jsonify (to_dict row) 201.
Proof.
  intros Hc Hs. destruct (serve_cases r db) as [[e [_ He]]|[db' [resp [Hr Hsv]]]].
  - rewrite He in Hs. destruct e; discriminate Hs.
  - rewrite Hsv in *. cbn [fst snd] in *.
    destruct (route_transition r db db' resp Hr)
      as [[_ Hn]|[[_ [b [n [p [row [Hi ->]]]]]]|[H|H]]].
    + contradiction.
    + exists b, n, p, row. repeat split; assumption.
    + destruct H as [i [data [? [? [? [? [-> _]]]]]]]. destruct Hc.
    + destruct H as [i [? [-> _]]]. destruct Hc.
Qed.

Lemma query_get_appended (db : Store) (row : Product) :
  ~ In (id row) (map id db) ->
  query_get (id row) (db ++ [row]) = Some row.
Proof.
  unfold query_get. induction db as [|q db IH]; cbn [map In app find]; intros Hn.
  - rewrite Z.eqb_refl. reflexivity.
  - destruct (id q =? id row) eqn:E.
    + exfalso. apply Hn. left. lia.
    + apply IH. intros Hin. apply Hn. right. exact Hin.
Qed.

Lemma delete_row_appended (db : Store) (row : Product) :
  ~ In (id row) (map id db) ->
  delete_row row (db ++ [row]) = db.
Proof.
  unfold delete_row. induction db as [|q db IH]; cbn [map In app filter]; intros Hn.
  - rewrite Z.eqb_refl. reflexivity.
  - destruct (id q =? id row) eqn:E.
    + exfalso. apply Hn. left. lia.
    + cbn [negb]. f_equal. apply IH. intros Hin. apply Hn. right. exact Hin.
Qed.

(** X3: a create answered 201, by either route and whatever the types of
    the fields were, has appended exactly one row and changed no other; the
    row has an id that no stored product had, one more than the largest, and
    a barcode that no stored product had; the body of the answer is that
    row, and reading the new id right after gives the same fields. *)
Theorem create_then_get (r : request) (db : Store) :
  is_create r ->
  status (snd (serve r db)) = 201 ->
  exists row,
    serve r db = (db ++ [row], jsonify (to_dict row) 201)
    /\ id row = next_id db
    /\ ~ In (id row) (map id db)
    /\ ~ In (barcode row) (barcodes db)
    /\ serve (GetProduct (id row)) (db ++ [row])
       = (db ++ [row], jsonify (to_dict row) 200).
Proof.
  intros Hc Hs.
  destruct (create_committed r db Hc Hs) as [b [n [p [row [_ [Hi Hresp]]]]]].
  destruct (insert_product_returns _ _ _ _ _ _ Hi) as [Hdb [Hid [_ Hb]]].
  assert (Hfresh : ~ In (id row) (map id db))
    by (rewrite Hid; apply next_id_fresh).
  exists row. split; [|repeat split; assumption || idtac].
  - rewrite (surjective_pairing (serve r db)), Hdb, Hresp. reflexivity.
  - unfold serve, route, respond, get_product.
    rewrite (get_or_404_found _ _ _ (query_get_appended db row Hfresh)).
    reflexivity.
Qed.

(** X4: deleting the product that a create has just made gives back the
    table as it was before the create. *)
Theorem create_then_delete (r : request) (db : Store) :
  is_create r ->
  status (snd (serve r db)) = 201 ->
  serve (DeleteProduct (next_id db)) (fst (serve r db)) = (db, product_deleted).
Proof.
  intros Hc Hs.
  destruct (create_committed r db Hc Hs) as [b [n [p [row [_ [Hi _]]]]]].
  destruct (insert_product_returns _ _ _ _ _ _ Hi) as [Hdb [Hid _]].
  assert (Hfresh : ~ In (id row) (map id db))
    by (rewrite Hid; apply next_id_fresh).
  rewrite Hdb, <- Hid. unfold serve, route, respond, delete_product.
  rewrite (get_or_404_found _ _ _ (query_get_appended db row Hfresh)).
  cbn [bind ret]. rewrite (delete_row_appended db row Hfresh). reflexivity.
Qed.

Lemma insert_product_again (b n p : json) (db db' : Store) (row : Product) :
  insert_product b n p db = inr (db', row) ->
  insert_product b n p db' = raise IntegrityError.
Proof.
  intros H. unfold insert_product in *.
  destruct (bind_text b) as [|b']; [discriminate H|]. cbn [bind] in *.
  destruct (bind_text n) as [|n']; [discriminate H|]. cbn [bind] in *.
  destruct (bind_real p) as [|p']; [discriminate H|]. cbn [bind] in *.
  destruct (existsb (String.eqb b') (barcodes db)); [discriminate H|].
  inversion H; subst; clear H.
  assert (Hex : existsb (String.eqb b')
                  (barcodes (db ++ [mkProduct (next_id db) b' n' p'])) = true).
  { apply existsb_exists. exists b'. split; [|apply String.eqb_refl].
    unfold barcodes. rewrite map_app, in_app_iff. right. left. reflexivity. }
  rewrite Hex. reflexivity.
Qed.

Lemma create_again (r : request) (db db' : Store) (resp : Response) :
  is_create r ->
  route r db = inr (db', resp) -> status resp = 201 ->
  route r db' = raise IntegrityError.
Proof.
  intros Hc H Hs. destruct r; try destruct Hc; cbn [route] in *.
  - unfold add_product in *.
    repeat match type of H with
      | bind (insert_product _ _ _ _) _ = _ => fail 1
      | bind ?m _ = _ =>
          destruct m eqn:?; cbn [bind] in H |- *; [discriminate H|]
      | (if ?c then _ else _) = _ =>
          destruct c eqn:?; [inversion H; subst; discriminate Hs|]
      end.
    match type of H with
    | bind (insert_product ?b ?n ?p db) _ = _ =>
        destruct (insert_product b n p db) as [|[db1 row]] eqn:Hi;
        cbn [bind] in H; [discriminate H|]
    end.
    inversion H; subst.
    rewrite (insert_product_again _ _ _ _ _ _ Hi). reflexivity.
  - unfold jwt_required in *. destruct auth as [t|];
      [|inversion H; subst; discriminate Hs].
    destruct (signing_key t =? JWT_SECRET_KEY)%string;
      [|inversion H; subst; discriminate Hs].
    unfold add_product_protected in *.
    repeat match type of H with
      | bind (insert_product _ _ _ _) _ = _ => fail 1
      | bind ?m _ = _ =>
          destruct m eqn:?; cbn [bind] in H |- *; [discriminate H|]
      | (if ?c then _ else _) = _ =>
          destruct c eqn:?; [inversion H; subst; discriminate Hs|]
      end.
    match type of H with
    | bind (insert_product ?b ?n ?p db) _ = _ =>
        destruct (insert_product b n p db) as [|[db1 row]] eqn:Hi;
        cbn [bind] in H; [discriminate H|]
    end.
    inversion H; subst.
    rewrite (insert_product_again _ _ _ _ _ _ Hi). reflexivity.
Qed.

(** X5: a create that was answered 201 cannot be repeated: the same request
    sent again, by either route, is answered with the generic 500 and the
    table keeps the single row. *)
Theorem create_twice (r : request) (db : Store) :
  is_create r ->
  status (snd (serve r db)) = 201 ->
  serve r (fst (serve r db)) = (fst (serve r db), generic_error).
Proof.
  intros Hc Hs.
  destruct (create_committed r db Hc Hs) as [b [n [p [row [Hr _]]]]].
  pose proof (create_again r db _ _ Hc Hr Hs) as Hagain.
  unfold serve at 1. rewrite (respond_raise _ _ _ Hagain). reflexivity.
Qed.

(** ** Updating and deleting *)

Lemma update_product_unfold (i : Z) (kvs : list (string * json)) (db : Store)
  (p : Product) :
  query_get i db = Some p ->
  update_product i (JDict kvs) db =
  ('(db', row) <-
     update_columns p
       match lookup "name" kvs with Some v => v | None => JStr (name p) end
       match lookup "price" kvs with Some v => v | None => JFloat (price p) end
       db ;;
   ret (db', jsonify (to_dict row) 200)).
Proof.
  intros Hq. unfold update_product, py_get.
  rewrite (get_or_404_found _ _ _ Hq). cbn [bind ret].
  destruct (lookup "name" kvs), (lookup "price" kvs); reflexivity.
Qed.

Lemma replace_row_twice (row : Product) (db : Store) :
  replace_row row (replace_row row db) = replace_row row db.
Proof.
  unfold replace_row. rewrite map_map. apply map_ext. intros q.
  destruct (id q =? id row) eqn:E; [rewrite Z.eqb_refl | rewrite E]; reflexivity.
Qed.

(** X6: updating a stored product with a name that is a string and a price
    that is a number writes both, with no check that they are truthy (the
    empty name and the price 0 are stored): the answer is 200 with the
    product's id and barcode and the new name and price, the product's row
    is replaced, and reading the id afterwards gives the same fields. *)
Theorem update_product_applies (i : Z) (kvs : list (string * json)) (db : Store)
  (p : Product) (n : string) (v : json) (f : spec_float) :
  query_get i db = Some p ->
  lookup "name" kvs = Some (JStr n) ->
  lookup "price" kvs = Some v ->
  json_number v = Some f ->
  let row := mkProduct (id p) (barcode p) n f in
  serve (PutProduct i (JDict kvs)) db
  = (replace_row row db, jsonify (to_dict row) 200)
  /\ serve (GetProduct i) (replace_row row db)
     = (replace_row row db, jsonify (to_dict row) 200).
Proof.
  intros Hq Hn Hv Hf row. destruct (query_get_id i db p Hq) as [Hid _]. split.
  - unfold serve, route, respond.
    rewrite (update_product_unfold i kvs db p Hq), Hn, Hv.
    unfold update_columns. cbn [bind_text bind ret].
    rewrite (bind_real_number v f Hf). reflexivity.
  - unfold serve, route, respond, get_product.
    assert (Hrow : query_get i (replace_row row db) = Some row).
    { rewrite <- Hid in Hq |- *. exact (query_get_replace row p db Hq). }
    rewrite (get_or_404_found _ _ _ Hrow). reflexivity.
Qed.

Lemma bind_real_stored (v : json) (f : spec_float) :
  bind_real v = inr f -> bind_real (JFloat f) = inr f.
Proof.
  unfold bind_real. destruct (to_float v) as [e|[g|]]; cbn [bind];
    try discriminate.
  destruct g; intros H; inversion H; reflexivity.
Qed.

(** X7: an update is idempotent: sending the same update a second time
    gives the same answer as the first time and leaves the table as the
    first one left it, whatever the id and the body are. *)
Theorem update_product_idempotent (i : Z) (data : json) (db : Store) :
  serve (PutProduct i data) (fst (serve (PutProduct i data) db))
  = serve (PutProduct i data) db.
Proof.
  destruct (serve_cases (PutProduct i data) db)
    as [[e [_ He]]|[db' [resp [Hr Hsv]]]].
  - rewrite He. cbn [fst]. exact He.
  - rewrite Hsv. cbn [fst]. cbn [route] in Hr.
    destruct (query_get i db) as [p|] eqn:Hq;
      [|unfold update_product, get_or_404 in Hr; rewrite Hq in Hr; discriminate Hr].
    destruct data;
      try (unfold update_product in Hr; rewrite (get_or_404_found _ _ _ Hq) in Hr;
           discriminate Hr).
    rewrite (update_product_unfold i kvs db p Hq) in Hr.
    destruct (update_columns p _ _ db) as [|[db1 row]] eqn:Hu;
      cbn [bind] in Hr; [discriminate Hr|].
    inversion Hr; subst db1 resp; clear Hr.
    destruct (update_columns_returns _ _ _ _ _ _ Hu)
      as [n' [pr' [Hn [Hp [Hrow Hdb]]]]].
    destruct (query_get_id i db p Hq) as [Hid _].
    subst row. set (row := mkProduct (id p) (barcode p) n' pr') in *.
    assert (Hq' : query_get i db' = Some row).
    { rewrite Hdb, <- Hid. change (id p) with (id row).
      apply (query_get_replace row p db).
      change (id row) with (id p). rewrite Hid. exact Hq. }
    unfold serve, route, respond.
    rewrite (update_product_unfold i kvs db' row Hq').
    assert (Hn2 : bind_text match lookup "name" kvs with
                            | Some v => v | None => JStr (name row) end = inr n').
    { destruct (lookup "name" kvs); [exact Hn | reflexivity]. }
    assert (Hp2 : bind_real match lookup "price" kvs with
                            | Some v => v | None => JFloat (price row) end = inr pr').
    { destruct (lookup "price" kvs); [exact Hp|].
      exact (bind_real_stored _ _ Hp). }
    unfold update_columns. rewrite Hn2, Hp2. cbn [bind ret].
    rewrite Hdb. change (mkProduct (id row) (barcode row) n' pr') with row.
    rewrite replace_row_twice. reflexivity.
Qed.

Lemma query_get_delete_other (p : Product) (j : Z) (db : Store) :
  j <> id p -> query_get j (delete_row p db) = query_get j db.
Proof.
  unfold query_get, delete_row. intros Hj.
  induction db as [|q db IH]; cbn [filter find]; [reflexivity|].
  destruct (id q =? id p) eqn:E; cbn [negb].
  - destruct (id q =? j) eqn:E1; [lia | exact IH].
  - cbn [find]. destruct (id q =? j); [reflexivity | exact IH].
Qed.

(** X8: deleting a stored product is answered 200 with the deletion
    message; afterwards its id is not found, every other id is found as
    before, and a second delete of the same id is answered 404 and changes
    nothing. *)
Theorem delete_product_frame (i : Z) (db : Store) (p : Product) :
  query_get i db = Some p ->
  serve (DeleteProduct i) db = (delete_row p db, product_deleted)
  /\ query_get i (delete_row p db) = None
  /\ (forall j, j <> i -> query_get j (delete_row p db) = query_get j db)
  /\ serve (DeleteProduct i) (delete_row p db) = (delete_row p db, not_found).
Proof.
  intros Hq. destruct (query_get_id i db p Hq) as [Hid _].
  assert (Hgone : query_get i (delete_row p db) = None)
    by (rewrite <- Hid; apply query_get_deleted).
  split; [|split; [exact Hgone|split]].
  - unfold serve, route, respond, delete_product.
    rewrite (get_or_404_found _ _ _ Hq). reflexivity.
  - intros j Hj. apply query_get_delete_other. lia.
  - unfold serve, route, respond, delete_product, get_or_404.
    rewrite Hgone. reflexivity.
Qed.

(** ** What a request can and cannot do to the table *)

(** X9: the table changes only with an answer of 200 or 201: a request
    answered with any other status leaves it as it was; and reading one
    product, searching, listing, selling and logging in never change it,
    whatever they are answered. *)
Theorem table_changes_only_on_success (r : request) (db : Store) :
  (status (snd (serve r db)) <> 200 ->
   status (snd (serve r db)) <> 201 ->
   fst (serve r db) = db)
  /\ (reads_only r -> fst (serve r db) = db).
Proof.
  destruct (serve_cases r db) as [[e [_ He]]|[db' [resp [Hr Hsv]]]].
  - rewrite He. split; reflexivity.
  - rewrite Hsv. cbn [fst snd].
    destruct (route_transition r db db' resp Hr)
      as [[-> _]|[[Hc [b [n [p [row [_ ->]]]]]]|[H|H]]].
    + split; reflexivity.
    + split; [intros _ H201; exfalso; apply H201; reflexivity|].
      intros Hro. destruct r; destruct Hc; destruct Hro.
    + destruct H as [i [data [p [n [pr [row [-> [_ [_ ->]]]]]]]]].
      split; [intros H200; exfalso; apply H200; reflexivity | intros []].
    + destruct H as [i [p [-> [_ [_ ->]]]]].
      split; [intros H200; exfalso; apply H200; reflexivity | intros []].
Qed.

Lemma route_status (r : request) (db db' : Store) (resp : Response) :
  route r db = inr (db', resp) ->
  In (status resp) [200; 201; 400; 401; 403; 422].
Proof.
  intros H. destruct r; cbn [route] in H.
  - unfold add_product in H. run_handler H; cbn; tauto.
  - unfold jwt_required in H. destruct auth as [t|]; run_handler H;
      try (cbn; tauto).
    unfold add_product_protected in H. run_handler H; cbn; tauto.
  - unfold get_product in H. run_handler H; cbn; tauto.
  - unfold update_product in H. run_handler H; cbn; tauto.
  - unfold delete_product in H. run_handler H; cbn; tauto.
  - unfold search_products in H. destruct query; run_handler H; cbn; tauto.
  - unfold get_products in H. run_handler H; cbn; tauto.
  - unfold sell_product in H. run_handler H; cbn; tauto.
  - unfold login in H. run_handler H; cbn; tauto.
Qed.

(** X10: every answer has one of the statuses 200, 201, 400, 401, 403, 404,
    422 and 500; an answer of 500 always has the generic error body and an
    answer of 404 the not-found body, so neither tells what went wrong; and
    the body of the handler registered for status 500 is never sent. *)
Theorem response_catalogue (r : request) (db : Store) :
  In (status (snd (serve r db))) [200; 201; 400; 401; 403; 404; 422; 500]
  /\ (status (snd (serve r db)) = 500 -> snd (serve r db) = generic_error)
  /\ (status (snd (serve r db)) = 404 -> snd (serve r db) = not_found)
  /\ snd (serve r db) <> internal_error.
Proof.
  destruct (serve_cases r db) as [[e [_ He]]|[db' [resp [Hr Hsv]]]].
  - rewrite He. destruct e; cbn [fst snd]; repeat split;
      try (cbn; tauto); try reflexivity; discriminate.
  - rewrite Hsv. cbn [fst snd]. pose proof (route_status r db db' resp Hr) as Hs.
    cbn [In] in Hs. repeat split.
    + cbn [In]. tauto.
    + intros H500. rewrite H500 in Hs.
      destruct Hs as [H|[H|[H|[H|[H|[H|[]]]]]]]; discriminate H.
    + intros H404. rewrite H404 in Hs.
      destruct Hs as [H|[H|[H|[H|[H|[H|[]]]]]]]; discriminate H.
    + intros ->. cbn in Hs.
      destruct Hs as [H|[H|[H|[H|[H|[H|[]]]]]]]; discriminate H.
Qed.

(** ** Ids in a reachable table *)

Lemma lt_next_id (db : Store) (x : Z) :
  In x (map id db) -> x < next_id db.
Proof.
  intros Hin. apply le_fold_max in Hin. unfold next_id. lia.
Qed.

Lemma StronglySorted_snoc (l : list Z) (y : Z) :
  StronglySorted Z.lt l -> (forall x, In x l -> x < y) ->
  StronglySorted Z.lt (l ++ [y]).
Proof.
  induction 1 as [|x l Hl IH Hx]; cbn [app]; intros Hy.
  - constructor; constructor.
  - constructor.
    + apply IH. intros z Hz. apply Hy. right. exact Hz.
    + apply Forall_app. split; [exact Hx|].
      constructor; [apply Hy; left; reflexivity | constructor].
Qed.

Lemma StronglySorted_map_filter (g : Product -> bool) (db : Store) :
  StronglySorted Z.lt (map id db) ->
  StronglySorted Z.lt (map id (filter g db)).
Proof.
  induction db as [|q db IH]; cbn [map filter]; intros Hs; [constructor|].
  inversion Hs as [|? ? Hdb Hq]; subst.
  destruct (g q); cbn [map]; [constructor|]; auto.
  rewrite Forall_forall in *. intros x Hx. apply Hq.
  apply in_map_iff in Hx. destruct Hx as [z [<- Hz]].
  apply filter_In in Hz. apply in_map. tauto.
Qed.

Lemma Forall_map_filter (P : Z -> Prop) (g : Product -> bool) (db : Store) :
  Forall P (map id db) -> Forall P (map id (filter g db)).
Proof.
  rewrite !Forall_forall. intros H x Hx. apply H.
  apply in_map_iff in Hx. destruct Hx as [z [<- Hz]].
  apply filter_In in Hz. apply in_map. tauto.
Qed.

Lemma serve_ids_ascending (r : request) (db : Store) :
  ids_ascending db -> ids_ascending (fst (serve r db)).
Proof.
  intros [Hs Hpos].
  destruct (serve_cases r db) as [[e [_ He]]|[db' [resp [Hr Hsv]]]].
  - rewrite He. split; assumption.
  - rewrite Hsv. cbn [fst].
    destruct (route_transition r db db' resp Hr)
      as [[-> _]|[[_ [b [n [p [row [Hi _]]]]]]|[H|H]]].
    + split; assumption.
    + destruct (insert_product_returns _ _ _ _ _ _ Hi) as [-> [Hid _]].
      unfold ids_ascending. rewrite map_app. cbn [map]. rewrite Hid. split.
      * apply StronglySorted_snoc; [exact Hs | apply lt_next_id].
      * apply Forall_app. split; [exact Hpos|].
        constructor; [|constructor]. unfold next_id.
        assert (0 <= fold_right Z.max 0 (map id db)); [|lia].
        clear. induction (map id db); cbn [fold_right]; lia.
    + destruct H as [i [data [p [n [pr [row [_ [_ [Hu _]]]]]]]]].
      destruct (update_columns_returns _ _ _ _ _ _ Hu) as [n' [pr' [_ [_ [-> ->]]]]].
      unfold ids_ascending. rewrite replace_row_ids. split; assumption.
    + destruct H as [i [p [_ [_ [-> _]]]]]. unfold delete_row. split.
      * apply StronglySorted_map_filter, Hs.
      * apply Forall_map_filter, Hpos.
Qed.

(** X11: in every table the application can reach, ids are positive and
    strictly increasing along the table, so products are listed in the
    order in which they were created and no id occurs twice. *)
Theorem reachable_ids_ascending (db : Store) :
  reachable db ->
  StronglySorted Z.lt (map id db)
  /\ Forall (fun i => 0 < i) (map id db)
  /\ NoDup (map id db).
Proof.
  intros Hr.
  assert (Ha : ids_ascending db).
  { induction Hr as [|db r _ IH].
    - split; constructor.
    - apply serve_ids_ascending, IH. }
  destruct Ha as [Hs Hpos]. split; [exact Hs|]. split; [exact Hpos|].
  exact (proj1 (reachable_ok db Hr)).
Qed.

(** ** The protected create and the tokens of login *)

(** X12: the protected create refuses a request without a token with
    status 401, and a request whose token is signed by the application but
    carries a username other than admin with status 403 and the
    unauthorized error; in both cases whatever the body is, and nothing is
    persisted. *)
Theorem protected_create_refused (data : json) (db : Store) :
  (fst (serve (PostProductProtected None data) db) = db
   /\ status (snd (serve (PostProductProtected None data) db)) = 401)
  /\ (forall t u,
       signing_key t = JWT_SECRET_KEY ->
       py_getitem (identity t) "username" = inr u ->
       py_eq_str u "admin" = false ->
       serve (PostProductProtected (Some t) data) db
       = (db, jsonify (error_body "Unauthorized") 403)).
Proof.
  split; [split; reflexivity|].
  intros t u Hk Hu Hne.
  unfold serve, route, respond, jwt_required, add_product_protected.
  rewrite Hk, String.eqb_refl, Hu. cbn [bind]. rewrite Hne. reflexivity.
Qed.

Lemma login_token (kvs : list (string * json)) (db : Store) (t : access_token) :
  content (snd (serve (Login (JDict kvs)) db)) = AccessToken t ->
  t = mkToken JWT_SECRET_KEY (JDict [("username", JStr "admin")]).
Proof.
  unfold serve, route, respond. rewrite login_check. cbn zeta.
  destruct (py_eq_str _ "admin" && py_eq_str _ "password") eqn:E;
    cbn [ret snd content]; intros H; [|discriminate H].
  apply andb_true_iff in E. destruct E as [Eu _].
  apply py_eq_str_true in Eu. rewrite Eu in H. inversion H. reflexivity.
Qed.

Lemma add_product_protected_admin (data : json) (db : Store) :
  add_product_protected (JDict [("username", JStr "admin")]) data db =
  (b <- py_getitem data "barcode" ;;
   n <- py_getitem data "name" ;;
   p <- py_getitem data "price" ;;
   '(db', product) <- insert_product b n p db ;;
   ret (db', jsonify (to_dict product) 201)).
Proof. reflexivity. Qed.

Lemma py_getitem_raises (data : json) (k : string) :
  py_getitem data k = inl NotFound -> False.
Proof.
  destruct data; cbn [py_getitem]; try discriminate.
  destruct (lookup k kvs); discriminate.
Qed.

Lemma bind_text_raises (v : json) : bind_text v = inl NotFound -> False.
Proof.
  destruct v; cbn [bind_text]; try discriminate.
  - destruct (in_int64 z); discriminate.
  - destruct f; discriminate.
Qed.

Lemma bind_real_raises (v : json) : bind_real v = inl NotFound -> False.
Proof.
  unfold bind_real, to_float, float_of_int. destruct v; cbn [bind ret raise];
    try discriminate.
  - destruct (int_to_float _); discriminate.
  - destruct (binary_normalize prec emax z 0 false); cbn [bind]; discriminate.
  - destruct f; discriminate.
  - destruct (float_of_str s) as [[]|]; cbn [bind]; discriminate.
Qed.

Lemma insert_product_raises (b n p : json) (db : Store) :
  insert_product b n p db = inl NotFound -> False.
Proof.
  unfold insert_product.
  destruct (bind_text b) as [e|b'] eqn:Eb; cbn [bind].
  { intros H. inversion H; subst. exact (bind_text_raises _ Eb). }
  destruct (bind_text n) as [e|n'] eqn:En; cbn [bind].
  { intros H. inversion H; subst. exact (bind_text_raises _ En). }
  destruct (bind_real p) as [e|p'] eqn:Ep; cbn [bind].
  { intros H. inversion H; subst. exact (bind_real_raises _ Ep). }
  destruct (existsb (String.eqb b') (barcodes db)); discriminate.
Qed.

(** X13: a token that login has issued opens the protected create: with it
    the request is never answered 401, 403 or 422, only 201 or the generic
    500; and for a body whose barcode, name and price are all present and
    truthy the protected create does exactly what the unprotected create
    does. *)
Theorem login_token_opens_protected
  (kvs : list (string * json)) (db0 : Store) (t : access_token)
  (data : json) (db : Store) :
  content (snd (serve (Login (JDict kvs)) db0)) = AccessToken t ->
  (status (snd (serve (PostProductProtected (Some t) data) db)) = 201
   \/ snd (serve (PostProductProtected (Some t) data) db) = generic_error)
  /\ (forall fields,
       data = JDict fields ->
       absent_or_falsy fields "barcode" || absent_or_falsy fields "name"
       || absent_or_falsy fields "price" = false ->
       serve (PostProductProtected (Some t) data) db
       = serve (PostProduct data) db).
Proof.
  intros Ht. rewrite (login_token kvs db0 t Ht).
  unfold serve, route, jwt_required, respond. cbn [signing_key identity].
  rewrite String.eqb_refl, add_product_protected_admin. split.
  - destruct (py_getitem data "barcode") as [e|b] eqn:Eb; cbn [bind].
    { right. destruct e; try reflexivity. destruct (py_getitem_raises _ _ Eb). }
    destruct (py_getitem data "name") as [e|n] eqn:En; cbn [bind].
    { right. destruct e; try reflexivity. destruct (py_getitem_raises _ _ En). }
    destruct (py_getitem data "price") as [e|p] eqn:Ep; cbn [bind].
    { right. destruct e; try reflexivity. destruct (py_getitem_raises _ _ Ep). }
    destruct (insert_product b n p db) as [e|[db' row]] eqn:Ei; cbn [bind ret].
    { right. destruct e; try reflexivity. destruct (insert_product_raises _ _ _ _ Ei). }
    left. reflexivity.
  - intros fields -> Hm. unfold absent_or_falsy in Hm.
    destruct (lookup "barcode" fields) as [b|] eqn:Hb; [|discriminate Hm].
    destruct (lookup "name" fields) as [n|] eqn:Hn;
      [|rewrite orb_true_r in Hm; discriminate Hm].
    destruct (lookup "price" fields) as [p|] eqn:Hp;
      [|rewrite orb_true_r in Hm; discriminate Hm].
    apply orb_false_elim in Hm. destruct Hm as [Hm Tp].
    apply orb_false_elim in Hm. destruct Hm as [Tb Tn].
    apply negb_false_iff in Tb, Tn, Tp.
    rewrite (add_product_present fields db b n p Hb Tb Hn Tn Hp Tp).
    unfold py_getitem. rewrite Hb, Hn, Hp. reflexivity.
Qed.

(** X14: the protected create stores what it is given without the check of
    the unprotected create: with a token signed by the application for
    admin, a barcode and a name that are strings (the empty string too) and
    a price that is a number (0 too), it is answered 201 and appends the
    product whenever no stored product has the barcode; the unprotected
    create answers 400 for the same body when one of the three is falsy. *)
Theorem protected_create_unvalidated
  (t : access_token) (kvs : list (string * json)) (db : Store)
  (b n : string) (v : json) (f : spec_float) :
  signing_key t = JWT_SECRET_KEY ->
  identity t = JDict [("username", JStr "admin")] ->
  lookup "barcode" kvs = Some (JStr b) ->
  lookup "name" kvs = Some (JStr n) ->
  lookup "price" kvs = Some v ->
  json_number v = Some f ->
  ~ In b (barcodes db) ->
  let row := mkProduct (next_id db) b n f in
  serve (PostProductProtected (Some t) (JDict kvs)) db
  = (db ++ [row], jsonify (to_dict row) 201)
  /\ (b = "" \/ n = "" \/ truthy v = false ->
      serve (PostProduct (JDict kvs)) db = (db, missing_fields)).
Proof.
  intros Hk Hi Hb Hn Hv Hf Hfresh row. split.
  - unfold serve, route, jwt_required, respond.
    rewrite Hk, String.eqb_refl, Hi, add_product_protected_admin.
    unfold py_getitem. rewrite Hb, Hn, Hv. cbn [bind ret].
    rewrite (insert_product_typed b n v f db Hf).
    destruct (existsb (String.eqb b) (barcodes db)) eqn:E; [|reflexivity].
    exfalso. apply Hfresh. apply existsb_exists in E.
    destruct E as [x [Hx Hxb]]. apply String.eqb_eq in Hxb. subst x. exact Hx.
  - intros Hfalsy. unfold serve, route.
    apply respond_return, add_product_missing.
    unfold absent_or_falsy. rewrite Hb, Hn, Hv.
    destruct Hfalsy as [-> | [-> | ->]]; cbn [truthy String.eqb negb orb];
      rewrite ?orb_true_r; reflexivity.
Qed.

(** ** Searching: the empty text and the case of letters *)

Lemma to_lower_idempotent (c : ascii) : to_lower (to_lower c) = to_lower c.
Proof. destruct c as [[] [] [] [] [] [] [] []]; reflexivity. Qed.

Lemma to_lower_percent (c : ascii) : (to_lower c =? "%")%char = (c =? "%")%char.
Proof. destruct c as [[] [] [] [] [] [] [] []]; reflexivity. Qed.

Lemma to_lower_underscore (c : ascii) : (to_lower c =? "_")%char = (c =? "_")%char.
Proof. destruct c as [[] [] [] [] [] [] [] []]; reflexivity. Qed.

Lemma like_lower_pattern (pat text : string) :
  like (lower_string pat) text = like pat text.
Proof.
  revert text. induction pat as [|c pat IH]; intros text; [reflexivity|].
  cbn [lower_string]. destruct (c =? "%")%char eqn:E.
  - apply Ascii.eqb_eq in E. subst c.
    change (to_lower "%") with "%"%char.
    induction text as [|d text IHt].
    + rewrite !like_percent_unfold, IH. reflexivity.
    + rewrite (like_percent_unfold (lower_string pat)), (like_percent_unfold pat).
      rewrite IH, IHt. reflexivity.
  - destruct text as [|d text].
    + cbn [like]. rewrite to_lower_percent, E. reflexivity.
    + rewrite !like_char_unfold by (rewrite ?to_lower_percent; exact E).
      rewrite to_lower_underscore, to_lower_idempotent, IH. reflexivity.
Qed.

Lemma like_lower_text (pat text : string) :
  like pat (lower_string text) = like pat text.
Proof.
  revert text. induction pat as [|c pat IH]; intros text.
  - destruct text; reflexivity.
  - destruct (c =? "%")%char eqn:E.
    + apply Ascii.eqb_eq in E. subst c.
      induction text as [|d text IHt].
      * cbn [lower_string]. rewrite !like_percent_unfold, <- (IH ""). reflexivity.
      * cbn [lower_string].
        rewrite (like_percent_unfold pat (String _ _)),
          (like_percent_unfold pat (String d text)).
        rewrite IHt. rewrite <- (IH (String d text)). reflexivity.
    + destruct text as [|d text]; [cbn [lower_string like]; rewrite E; reflexivity|].
      cbn [lower_string]. rewrite !like_char_unfold by exact E.
      rewrite to_lower_idempotent, IH. reflexivity.
Qed.

Lemma lower_string_pattern (q : string) :
  lower_string ("%" ++ q ++ "%") = ("%" ++ lower_string q ++ "%")%string.
Proof.
  cbn [append lower_string]. change (to_lower "%") with "%"%char. f_equal.
  induction q as [|c q IH]; [reflexivity|].
  cbn [append lower_string]. rewrite IH. reflexivity.
Qed.

Lemma contains_nocase_both (text q : string) :
  contains (lower_string text) (lower_string q) = contains text q.
Proof.
  unfold contains.
  rewrite <- lower_string_pattern, like_lower_pattern, like_lower_text.
  reflexivity.
Qed.

Lemma filter_all {A} (l : list A) : filter (fun _ => true) l = l.
Proof.
  induction l as [|a l IH]; cbn [filter]; [|rewrite IH]; reflexivity.
Qed.

(** X15: a search for the empty text, and a search for the text made of one
    percent sign, are answered with every stored product, in the order of
    the table. *)
Theorem search_products_everything (q : string) (db : Store) :
  q = "" \/ q = "%" ->
  serve (SearchProducts (Some q)) db = (db, jsonify (JList (map to_dict db)) 200).
Proof.
  intros Hq. rewrite search_products_response.
  rewrite (filter_ext _ (fun _ => true)); [rewrite filter_all; reflexivity|].
  intros p. unfold contains.
  assert (Hall : forall text, like ("%" ++ q ++ "%") text = true).
  { intros text. destruct Hq as [->| ->]; cbn [append].
    - rewrite like_percent_unfold, like_percent_all. reflexivity.
    - rewrite like_percent_unfold, like_percent_unfold, like_percent_all.
      reflexivity. }
  rewrite !Hall. reflexivity.
Qed.

(** X16: a search does not see the case of ASCII letters, neither in the
    text searched for nor in what is stored: the text and its lower-case
    form are answered alike on every table, and whether a product matches
    is decided by the lower-case forms of its name and barcode. *)
Theorem search_products_ignores_case (q : string) (db : Store) :
  serve (SearchProducts (Some (lower_string q))) db
  = serve (SearchProducts (Some q)) db
  /\ (forall p,
       contains (name p) q || contains (barcode p) q
       = contains (lower_string (name p)) (lower_string q)
         || contains (lower_string (barcode p)) (lower_string q)).
Proof.
  split.
  - rewrite !search_products_response.
    rewrite (filter_ext _ (fun p => contains (name p) q || contains (barcode p) q));
      [reflexivity|].
    intros p. unfold contains.
    rewrite <- lower_string_pattern, !like_lower_pattern. reflexivity.
  - intros p. rewrite !contains_nocase_both. reflexivity.
Qed.

(** ** Walking the pages of a listing *)

Lemma firstn_add {A} (a b : nat) (l : list A) :
  firstn (a + b) l = firstn a l ++ firstn b (skipn a l).
Proof.
  revert l. induction a as [|a IH]; intros l; [reflexivity|].
  destruct l as [|x l]; cbn [Nat.add firstn skipn app].
  - rewrite firstn_nil. reflexivity.
  - rewrite IH. reflexivity.
Qed.

Lemma listed_page (k : nat) (size : Z) (db : Store) :
  0 < size -> size < 2 ^ 63 -> Z.of_nat k * size < 2 ^ 63 ->
  listed (snd (serve (GetProducts (Some (Z.of_nat (S k))) (Some size)) db))
  = map to_dict (firstn (Z.to_nat size) (skipn (k * Z.to_nat size) db)).
Proof.
  intros Hpos Hsize Hoff.
  assert (Hps : page_size_of size = size)
    by (unfold page_size_of; destruct (size <? 0) eqn:E; lia).
  assert (Hfit : page_fits (args_get_int (Some (Z.of_nat (S k))) 1)
                   (args_get_int (Some size) 10)).
  { cbn [args_get_int]. unfold page_fits. rewrite Hps. split; [lia|].
    replace (Z.max 1 (Z.of_nat (S k)) - 1) with (Z.of_nat k) by lia. exact Hoff. }
  rewrite (get_products_fits _ _ db Hfit). cbn [args_get_int].
  unfold listed, response_field. cbn [snd jsonify content lookup String.eqb].
  rewrite Hps.
  replace (Z.max 1 (Z.of_nat (S k)) - 1) with (Z.of_nat k) by lia.
  rewrite Z2Nat.inj_mul, Nat2Z.id by lia. reflexivity.
Qed.

Lemma walk_listing_firstn (size : Z) (db : Store) (n : nat) :
  0 < size -> size < 2 ^ 63 -> (Z.of_nat n - 1) * size < 2 ^ 63 ->
  walk_listing size db n = map to_dict (firstn (n * Z.to_nat size) db).
Proof.
  intros Hpos Hsize. unfold walk_listing.
  induction n as [|n IH]; intros Hoff; [reflexivity|].
  rewrite seq_S, flat_map_app, IH by nia. cbn [flat_map Nat.add].
  rewrite app_nil_r, (listed_page n size db Hpos Hsize) by nia.
  rewrite <- map_app. f_equal.
  replace (S n * Z.to_nat size)%nat with (n * Z.to_nat size + Z.to_nat size)%nat
    by lia.
  symmetry. apply firstn_add.
Qed.

Lemma page_count_bounds (size : Z) (db : Store) :
  0 < page_size_of size ->
  (page_count size db - 1) * page_size_of size < Z.of_nat (List.length db)
  /\ Z.of_nat (List.length db) <= page_count size db * page_size_of size.
Proof.
  intros Hs. unfold page_count.
  destruct (page_size_of size =? 0) eqn:E0; [lia|].
  pose proof (Z.div_mod (Z.of_nat (List.length db) + page_size_of size - 1)
                (page_size_of size)) as Hd.
  pose proof (Z.mod_pos_bound (Z.of_nat (List.length db) + page_size_of size - 1)
                (page_size_of size) Hs) as Hm.
  nia.
Qed.

(** X17: with a page size that is positive and below 2^63, on a table of
    fewer than 2^63 products, the first page reports a number of pages, and
    the products of the answers to the pages 1 up to that number, taken one
    after the other, are the stored products exactly as the table has them:
    none is left out, none comes twice, and the order is kept. *)
Theorem get_products_walk (size : Z) (db : Store) :
  0 < size -> size < 2 ^ 63 ->
  Z.of_nat (List.length db) < 2 ^ 63 ->
  response_field (snd (serve (GetProducts (Some 1) (Some size)) db)) "pages"
  = Some (JInt (page_count size db))
  /\ walk_listing size db (Z.to_nat (page_count size db)) = map to_dict db.
Proof.
  intros Hpos Hsize Hlen.
  assert (Hps : page_size_of size = size)
    by (unfold page_size_of; destruct (size <? 0) eqn:E; lia).
  destruct (page_count_bounds size db) as [Hlow Hup]; [lia|].
  rewrite Hps in Hlow, Hup.
  assert (Hn : 0 <= page_count size db).
  { unfold page_count. rewrite Hps. destruct (size =? 0); [lia|].
    apply Z.div_pos; lia. }
  split.
  - assert (Hfit : page_fits (args_get_int (Some 1) 1) (args_get_int (Some size) 10)).
    { cbn [args_get_int]. unfold page_fits. rewrite Hps. split; lia. }
    rewrite (get_products_fits _ _ db Hfit). reflexivity.
  - rewrite (walk_listing_firstn size db _ Hpos Hsize) by (rewrite Z2Nat.id; lia).
    rewrite firstn_all2; [reflexivity|]. nia.
Qed.

(** X18: the numbers in a listing answered 200 fit its items: the total is
    the number of stored products, also when the first page is short and the
    count is taken from it; the current page is the page asked for, or 1 for
    a page below 1; the page never holds more than the page size; a page
    before the last one is full; and with a positive page size the number
    of pages is the least that holds the total. *)
Theorem get_products_counts (pg size : Z) (db : Store) :
  status (snd (serve (GetProducts (Some pg) (Some size)) db)) = 200 ->
  exists l pgs,
    snd (serve (GetProducts (Some pg) (Some size)) db)
    = jsonify (JDict [("products", JList l);
                      ("total", JInt (Z.of_nat (List.length db)));
                      ("pages", JInt pgs);
                      ("current_page", JInt (Z.max 1 pg))]) 200
    /\ Z.of_nat (List.length l) <= page_size_of size
    /\ (Z.max 1 pg < pgs -> Z.of_nat (List.length l) = page_size_of size)
    /\ (0 < page_size_of size ->
        (pgs - 1) * page_size_of size < Z.of_nat (List.length db)
        <= pgs * page_size_of size).
Proof.
  intros Hs.
  assert (Hfit : page_fits pg size).
  { destruct (Z_lt_ge_dec (page_size_of size) (2 ^ 63)) as [H1|H1];
      [destruct (Z_lt_ge_dec ((Z.max 1 pg - 1) * page_size_of size) (2 ^ 63))
         as [H2|H2]; [split; assumption|]|];
      (rewrite (get_products_overflow (Some pg) (Some size) db) in Hs;
       [discriminate Hs | intros [? ?]; cbn [args_get_int] in *; lia]). }
  rewrite (get_products_fits (Some pg) (Some size) db Hfit). cbn [args_get_int snd].
  pose proof (page_size_of_nonneg size) as Hnn.
  do 2 eexists. split; [reflexivity|].
  rewrite length_map, length_firstn, length_skipn.
  set (s := page_size_of size) in *. set (k := Z.max 1 pg) in *.
  assert (Hk : 1 <= k) by (subst k; lia).
  split; [lia|]. split.
  - intros Hlt.
    assert (Hs0 : 0 < s).
    { destruct (Z.eq_dec s 0) as [E|E]; [|lia].
      unfold page_count in Hlt. fold s in Hlt. rewrite E in Hlt. cbn in Hlt. lia. }
    destruct (page_count_bounds size db Hs0) as [Hlow _]. fold s in Hlow.
    assert (Hoff : Z.of_nat (Z.to_nat ((k - 1) * s)) = (k - 1) * s) by nia.
    assert (k * s <= Z.of_nat (List.length db)) by nia.
    lia.
  - intros Hs0. destruct (page_count_bounds size db Hs0) as [Hlow Hup].
    fold s in Hlow, Hup. lia.
Qed.

(** ** The number of stored products *)



(** ** Bodies that are not JSON objects *)

(** X20: a body that is not a JSON object (no document, a list, a string, a
    number) is never answered with a 4xx status by the routes that read it:
    the creates, also with a token that login has issued, and the login are
    answered with the generic 500, and so are the update and the sale of a
    stored product; nothing is persisted. *)
Theorem non_object_body_500 (data : json) (db : Store) :
  (forall kvs, data <> JDict kvs) ->
  serve (PostProduct data) db = (db, generic_error)
  /\ serve (PostProductProtected
             (Some (create_access_token (JDict [("username", JStr "admin")])))
             data) db = (db, generic_error)
  /\ serve (Login data) db = (db, generic_error)
  /\ (forall i p, query_get i db = Some p ->
      serve (PutProduct i data) db = (db, generic_error)
      /\ serve (SellProduct i data) db = (db, generic_error)).
Proof.
  intros Hno. split; [|split; [|split]].
  - destruct data; try reflexivity. destruct (Hno kvs eq_refl).
  - destruct data; try reflexivity. destruct (Hno kvs eq_refl).
  - destruct data; try reflexivity. destruct (Hno kvs eq_refl).
  - intros i p Hq. split.
    + unfold serve, route, respond, update_product.
      rewrite (get_or_404_found _ _ _ Hq).
      destruct data; try reflexivity. destruct (Hno kvs eq_refl).
    + exact (sell_product_found i data db p Hq).
Qed.

End Coverage.

(** * The properties on concrete requests *)

#[local] Existing Instance example_platform.

(** C1: with product 1 stored, a sale of quantity 0, which no stock can
    fall short of, and a sale with no quantity in the body are both
    answered with the generic 500 and not with 200. *)
Theorem sell_product_enough_stock_500 :
  serve (SellProduct 1 (JDict [("quantity", JInt 0)])) [widget]
  = ([widget], generic_error)
  /\ serve (SellProduct 1 (JDict [])) [widget] = ([widget], generic_error)
  /\ status generic_error <> 200.
Proof.
  split; [reflexivity|]. split; [reflexivity | discriminate].
Qed.

(** C2: with product 1 stored, a sale of quantity 5 is answered with the
    generic 500 and not with the 400 of insufficient stock. *)
Theorem sell_product_short_stock_500 :
  serve (SellProduct 1 (JDict [("quantity", JInt 5)])) [widget]
  = ([widget], generic_error)
  /\ generic_error <> jsonify (error_body "Not enough stock") 400.
Proof.
  split; [reflexivity | discriminate].
Qed.

Lemma sell_product_always_500_witness :
  query_get 1 [widget] = Some widget
  /\ respond (sell_product 1 (JDict [("quantity", JInt 2)])) [widget]
     = ([widget], jsonify (error_body "An error occurred") 500).
Proof.
  split; [reflexivity|].
  apply (sell_product_always_500 1 (JDict [("quantity", JInt 2)]) [widget] widget).
  reflexivity.
Defined.

(** C4 as stated fails: a create whose three fields are present and truthy
    is answered 500, not 201, when its barcode is already stored. *)
Lemma add_product_duplicate_not_201 :
  absent_or_falsy widget_body "barcode" || absent_or_falsy widget_body "name"
  || absent_or_falsy widget_body "price" = false
  /\ serve (PostProduct (JDict widget_body)) [widget] = ([widget], generic_error)
  /\ status (snd (serve (PostProduct (JDict widget_body)) [widget])) <> 201.
Proof.
  split; [reflexivity|]. split; [reflexivity | discriminate].
Qed.

(** Nor is a truthy field enough when it is not of the column's type: a
    list cannot be bound to the barcode column. *)
Lemma add_product_list_barcode_500 :
  serve (PostProduct (JDict [("barcode", JList [JStr "036000291452"]);
                             ("name", JStr "Widget");
                             ("price", JFloat price_9_5)])) []
  = ([], generic_error).
Proof. reflexivity. Qed.

Lemma add_product_validation_witness :
  serve (PostProduct (JDict [("barcode", JStr "036000291452");
                             ("name", JStr "Widget"); ("price", JInt 0)])) []
  = ([], missing_fields)
  /\ serve (PostProduct (JDict widget_body)) []
     = ([widget], jsonify (to_dict widget) 201).
Proof.
  split.
  - apply (add_product_validation
             [("barcode", JStr "036000291452"); ("name", JStr "Widget");
              ("price", JInt 0)] []).
    reflexivity.
  - apply (proj2 (add_product_validation widget_body []) eq_refl
             "036000291452" "Widget" (JFloat price_9_5) price_9_5);
      reflexivity.
Defined.

Lemma barcode_unique_invariant_witness :
  reachable [widget]
  /\ NoDup (barcodes [widget])
  /\ fst (serve (PostProduct (JDict widget_body)) [widget]) = [widget]
  /\ status (snd (serve (PostProduct (JDict widget_body)) [widget])) <> 201.
Proof.
  assert (Hr : reachable [widget])
    by exact (reachable_step [] (PostProduct (JDict widget_body)) reachable_init).
  destruct (barcode_unique_invariant [widget] Hr) as [Hnd [_ Hdup]].
  split; [exact Hr|]. split; [exact Hnd|].
  apply (Hdup (PostProduct (JDict widget_body)) widget_body "036000291452").
  - left. reflexivity.
  - reflexivity.
  - left. reflexivity.
Defined.

(** C6 as stated fails: page 0 is not answered with an empty list but with
    the items of page 1, and a page whose offset is 2^63 is answered with
    the generic 500. *)
Lemma get_products_page_zero_and_overflow :
  serve (GetProducts (Some 0) (Some 1)) [widget; gadget; gizmo]
  = ([widget; gadget; gizmo],
     jsonify (JDict [("products", JList [to_dict widget]);
                     ("total", JInt 3);
                     ("pages", JInt 3);
                     ("current_page", JInt 1)]) 200)
  /\ serve (GetProducts (Some (2 ^ 63 + 1)) (Some 1)) [widget; gadget; gizmo]
     = ([widget; gadget; gizmo], generic_error)
  /\ serve (GetProducts (Some 1) (Some (2 ^ 63))) [widget; gadget; gizmo]
     = ([widget; gadget; gizmo], generic_error).
Proof.
  repeat split; vm_compute; reflexivity.
Qed.

Lemma get_products_pagination_witness :
  page_fits 5 1
  /\ out_of_range 5 1 [widget; gadget; gizmo]
  /\ serve (GetProducts (Some 5) (Some 1)) [widget; gadget; gizmo]
     = ([widget; gadget; gizmo],
        jsonify (JDict [("products", JList []);
                        ("total", JInt 3);
                        ("pages", JInt 3);
                        ("current_page", JInt 5)]) 200)
  /\ ~ page_fits 1 (2 ^ 63)
  /\ serve (GetProducts (Some 1) (Some (2 ^ 63))) [widget; gadget; gizmo]
     = ([widget; gadget; gizmo], generic_error)
  /\ serve (GetProducts (Some 0) (Some 2)) [widget; gadget; gizmo]
     = serve (GetProducts (Some 1) (Some 2)) [widget; gadget; gizmo]
  /\ exists p, nth_error [widget; gadget; gizmo] 1 = Some p
     /\ serve (GetProducts (Some 2) (Some 1)) [widget; gadget; gizmo] =
        ([widget; gadget; gizmo],
         jsonify (JDict [("products", JList [to_dict p]);
                         ("total", JInt 3);
                         ("pages", JInt 3);
                         ("current_page", JInt 2)]) 200).
Proof.
  destruct (get_products_pagination [widget; gadget; gizmo])
    as [_ [_ [_ [Hover [Hlow [Hout H3]]]]]].
  assert (Hfit : page_fits 5 1) by (split; reflexivity).
  assert (Ho : out_of_range 5 1 [widget; gadget; gizmo]) by reflexivity.
  assert (Hn : ~ page_fits 1 (2 ^ 63)) by (intros [H _]; discriminate H).
  split; [exact Hfit|]. split; [exact Ho|]. split; [exact (Hout 5 1 Hfit Ho)|].
  split; [exact Hn|]. split; [exact (Hover 1 (2 ^ 63) Hn)|].
  split; [apply Hlow; reflexivity|].
  exact (H3 eq_refl).
Defined.

Lemma update_product_frame_witness :
  query_get 2 [widget; gadget] = Some gadget
  /\ exists p',
       query_get 2 (fst (serve (PutProduct 2 (JDict [("price", JFloat price_9_5)]))
                           [widget; gadget])) = Some p'
       /\ id p' = 2 /\ barcode p' = "012345678905" /\ name p' = "Gadget".
Proof.
  split; [reflexivity|].
  destruct (update_product_frame 2 (JDict [("price", JFloat price_9_5)])
              [widget; gadget] gadget eq_refl)
    as [p' [Hq [Hid [Hb [Hn _]]]]].
  exists p'. split; [exact Hq|]. split; [exact Hid|]. split; [exact Hb|].
  apply Hn. reflexivity.
Defined.

Lemma login_credentials_witness :
  admin_pair [("username", JStr "admin"); ("password", JStr "password")]
  /\ serve (Login (JDict [("username", JStr "admin"); ("password", JStr "password")])) []
     = ([], mkResponse 200 (AccessToken admin_token))
  /\ ~ admin_pair [("username", JStr "admin")]
  /\ serve (Login (JDict [("username", JStr "admin")])) [] = ([], invalid_credentials).
Proof.
  assert (Ha : admin_pair [("username", JStr "admin"); ("password", JStr "password")])
    by (split; reflexivity).
  assert (Hn : ~ admin_pair [("username", JStr "admin")])
    by (intros [_ H]; discriminate H).
  split; [exact Ha|]. split.
  - exact (proj1 (login_credentials _ []) Ha).
  - split; [exact Hn|]. exact (proj1 (proj2 (login_credentials _ [])) Hn).
Defined.



Lemma protected_create_omitted_field_witness :
  signing_key admin_token = JWT_SECRET_KEY
  /\ serve (PostProductProtected (Some admin_token)
              (JDict [("barcode", JStr "036000291452"); ("name", JStr "Widget")])) []
     = ([], generic_error)
  /\ serve (PostProduct
              (JDict [("barcode", JStr "036000291452"); ("name", JStr "Widget")])) []
     = ([], missing_fields).
Proof.
  destruct (protected_create_omitted_field admin_token
              [("barcode", JStr "036000291452"); ("name", JStr "Widget")] []
              eq_refl eq_refl (or_intror (or_intror eq_refl)))
    as [H500 [_ H400]].
  split; [reflexivity|]. split; [exact H500 | exact H400].
Defined.

(** * The further properties on concrete requests *)

Lemma reachable_widget : reachable [widget].
Proof.
  exact (reachable_step [] (PostProduct (JDict widget_body)) reachable_init).
Defined.

Lemma unknown_id_404_witness :
  7 < 2 ^ 63
  /\ query_get 7 [widget] = None
  /\ serve (PutProduct 7 (JDict [("name", JStr "Other")])) [widget]
     = ([widget], not_found)
  /\ serve (SellProduct 7 JNull) [widget] = ([widget], not_found).
Proof.
  split; [reflexivity|]. split; [reflexivity|].
  destruct (unknown_id_404 7 (JDict [("name", JStr "Other")]) [widget]
              eq_refl eq_refl)
    as [_ [Hput _]].
  destruct (unknown_id_404 7 JNull [widget] eq_refl eq_refl) as [_ [_ [_ Hsell]]].
  split; [exact Hput | exact Hsell].
Defined.

Lemma get_product_stored_witness :
  reachable [widget] /\ In widget [widget]
  /\ serve (GetProduct 1) [widget] = ([widget], jsonify (to_dict widget) 200).
Proof.
  split; [exact reachable_widget|]. split; [left; reflexivity|].
  exact (get_product_stored [widget] widget reachable_widget (or_introl eq_refl)).
Defined.

Lemma create_then_get_witness :
  is_create (PostProduct (JDict widget_body))
  /\ status (snd (serve (PostProduct (JDict widget_body)) [])) = 201
  /\ exists row,
       serve (PostProduct (JDict widget_body)) [] = ([] ++ [row], jsonify (to_dict row) 201)
       /\ id row = 1.
Proof.
  split; [exact I|]. split; [reflexivity|].
  destruct (create_then_get (PostProduct (JDict widget_body)) [] I eq_refl)
    as [row [Hs [Hid _]]].
  exists row. split; [exact Hs | exact Hid].
Defined.

Lemma create_then_delete_witness :
  is_create (PostProduct (JDict widget_body))
  /\ status (snd (serve (PostProduct (JDict widget_body)) [gadget])) = 201
  /\ serve (DeleteProduct 3) [gadget; mkProduct 3 "036000291452" "Widget" price_9_5]
     = ([gadget], product_deleted).
Proof.
  split; [exact I|]. split; [reflexivity|].
  exact (create_then_delete (PostProduct (JDict widget_body)) [gadget] I eq_refl).
Defined.

Lemma create_twice_witness :
  is_create (PostProductProtected (Some admin_token) (JDict widget_body))
  /\ status (snd (serve (PostProductProtected (Some admin_token)
                           (JDict widget_body)) [])) = 201
  /\ serve (PostProductProtected (Some admin_token) (JDict widget_body)) [widget]
     = ([widget], generic_error).
Proof.
  split; [exact I|]. split; [reflexivity|].
  exact (create_twice (PostProductProtected (Some admin_token) (JDict widget_body))
           [] I eq_refl).
Defined.

Lemma update_product_applies_witness :
  query_get 2 [widget; gadget] = Some gadget
  /\ json_number (JInt 0) = Some (S754_zero false)
  /\ serve (PutProduct 2 (JDict [("name", JStr ""); ("price", JInt 0)]))
       [widget; gadget]
     = ([widget; mkProduct 2 "012345678905" "" (S754_zero false)],
        jsonify (to_dict (mkProduct 2 "012345678905" "" (S754_zero false))) 200).
Proof.
  split; [reflexivity|]. split; [reflexivity|].
  exact (proj1 (update_product_applies 2 [("name", JStr ""); ("price", JInt 0)]
                  [widget; gadget] gadget "" (JInt 0) (S754_zero false)
                  eq_refl eq_refl eq_refl eq_refl)).
Defined.

Lemma delete_product_frame_witness :
  query_get 1 [widget; gadget] = Some widget
  /\ serve (DeleteProduct 1) [widget; gadget] = ([gadget], product_deleted)
  /\ serve (DeleteProduct 1) [gadget] = ([gadget], not_found).
Proof.
  split; [reflexivity|].
  destruct (delete_product_frame 1 [widget; gadget] widget eq_refl)
    as [Hdel [_ [_ Hagain]]].
  split; [exact Hdel | exact Hagain].
Defined.

Lemma table_changes_only_on_success_witness :
  status (snd (serve (PostProduct (JDict [])) [widget])) <> 200
  /\ status (snd (serve (PostProduct (JDict [])) [widget])) <> 201
  /\ fst (serve (PostProduct (JDict [])) [widget]) = [widget]
  /\ reads_only (Login JNull)
  /\ fst (serve (Login JNull) [widget]) = [widget].
Proof.
  assert (H200 : status (snd (serve (PostProduct (JDict [])) [widget])) <> 200)
    by discriminate.
  assert (H201 : status (snd (serve (PostProduct (JDict [])) [widget])) <> 201)
    by discriminate.
  split; [exact H200|]. split; [exact H201|]. split.
  - exact (proj1 (table_changes_only_on_success (PostProduct (JDict [])) [widget])
             H200 H201).
  - split; [exact I|].
    exact (proj2 (table_changes_only_on_success (Login JNull) [widget]) I).
Defined.

Lemma response_catalogue_witness :
  status (snd (serve (SellProduct 1 (JDict [])) [widget])) = 500
  /\ snd (serve (SellProduct 1 (JDict [])) [widget]) = generic_error
  /\ status (snd (serve (GetProduct 4) [widget])) = 404
  /\ snd (serve (GetProduct 4) [widget]) = not_found.
Proof.
  split; [reflexivity|]. split.
  - exact (proj1 (proj2 (response_catalogue (SellProduct 1 (JDict [])) [widget]))
             eq_refl).
  - split; [reflexivity|].
    exact (proj1 (proj2 (proj2 (response_catalogue (GetProduct 4) [widget])))
             eq_refl).
Defined.

Lemma reachable_widget_gizmo : reachable [widget; gizmo].
Proof.
  exact (reachable_step _ (DeleteProduct 2)
          (reachable_step _ (PostProduct
                               (JDict [("barcode", JStr "725272730706");
                                       ("name", JStr "Gizmo");
                                       ("price", JFloat price_9_5)]))
            (reachable_step _ (PostProduct
                                 (JDict [("barcode", JStr "012345678905");
                                         ("name", JStr "Gadget");
                                         ("price", JFloat price_12_5)]))
              (reachable_step _ (PostProduct (JDict widget_body))
                 reachable_init)))).
Defined.

Lemma reachable_ids_ascending_witness :
  fold_left (fun db r => fst (serve r db)) widget_gizmo_requests []
  = [widget; gizmo]
  /\ reachable [widget; gizmo]
  /\ StronglySorted Z.lt [1; 3]
  /\ Forall (fun i => 0 < i) [1; 3]
  /\ NoDup [1; 3].
Proof.
  split; [reflexivity|]. split; [exact reachable_widget_gizmo|].
  exact (reachable_ids_ascending [widget; gizmo] reachable_widget_gizmo).
Defined.

Lemma protected_create_refused_witness :
  signing_key bob_token = JWT_SECRET_KEY
  /\ py_getitem (identity bob_token) "username" = inr (JStr "bob")
  /\ py_eq_str (JStr "bob") "admin" = false
  /\ serve (PostProductProtected (Some bob_token) (JDict widget_body)) []
     = ([], jsonify (error_body "Unauthorized") 403).
Proof.
  split; [reflexivity|]. split; [reflexivity|]. split; [reflexivity|].
  exact (proj2 (protected_create_refused (JDict widget_body) [])
           bob_token (JStr "bob") eq_refl eq_refl eq_refl).
Defined.

Lemma login_token_opens_protected_witness :
  content (snd (serve (Login (JDict [("username", JStr "admin");
                                     ("password", JStr "password")])) []))
  = AccessToken admin_token
  /\ serve (PostProductProtected (Some admin_token) (JDict widget_body)) []
     = serve (PostProduct (JDict widget_body)) [].
Proof.
  split; [reflexivity|].
  exact (proj2 (login_token_opens_protected
                  [("username", JStr "admin"); ("password", JStr "password")] []
                  admin_token (JDict widget_body) [] eq_refl)
           widget_body eq_refl eq_refl).
Defined.

Lemma protected_create_unvalidated_witness :
  signing_key admin_token = JWT_SECRET_KEY
  /\ json_number (JInt 0) = Some (S754_zero false)
  /\ ~ In "036000291452" (barcodes [])
  /\ serve (PostProductProtected (Some admin_token) (JDict blank_body)) []
     = ([mkProduct 1 "036000291452" "" (S754_zero false)],
        jsonify (to_dict (mkProduct 1 "036000291452" "" (S754_zero false))) 201)
  /\ serve (PostProduct (JDict blank_body)) [] = ([], missing_fields).
Proof.
  assert (Hfresh : ~ In "036000291452" (barcodes [])) by (intros []).
  split; [reflexivity|]. split; [reflexivity|]. split; [exact Hfresh|].
  destruct (protected_create_unvalidated admin_token blank_body []
              "036000291452" "" (JInt 0) (S754_zero false)
              eq_refl eq_refl eq_refl eq_refl eq_refl eq_refl Hfresh)
    as [Hp Hu].
  split; [exact Hp|]. apply Hu. right. left. reflexivity.
Defined.

Lemma search_products_everything_witness :
  serve (SearchProducts (Some "")) [widget; gadget]
  = ([widget; gadget], jsonify (JList [to_dict widget; to_dict gadget]) 200).
Proof.
  exact (search_products_everything "" [widget; gadget] (or_introl eq_refl)).
Defined.

Lemma get_products_walk_witness :
  0 < 2 /\ 2 < 2 ^ 63
  /\ Z.of_nat (List.length [widget; gadget; gizmo]) < 2 ^ 63
  /\ response_field (snd (serve (GetProducts (Some 1) (Some 2))
                             [widget; gadget; gizmo])) "pages"
     = Some (JInt 2)
  /\ listed (snd (serve (GetProducts (Some 1) (Some 2)) [widget; gadget; gizmo]))
     ++ listed (snd (serve (GetProducts (Some 2) (Some 2)) [widget; gadget; gizmo]))
     = [to_dict widget; to_dict gadget; to_dict gizmo].
Proof.
  assert (H1 : 0 < 2) by reflexivity.
  assert (H2 : 2 < 2 ^ 63) by reflexivity.
  assert (H3 : Z.of_nat (List.length [widget; gadget; gizmo]) < 2 ^ 63)
    by reflexivity.
  destruct (get_products_walk 2 [widget; gadget; gizmo] H1 H2 H3) as [Hp Hw].
  split; [exact H1|]. split; [exact H2|]. split; [exact H3|].
  split; [exact Hp|].
  refine (eq_trans _ Hw). reflexivity.
Defined.

Lemma get_products_counts_witness :
  status (snd (serve (GetProducts (Some 1) (Some 2)) [widget; gadget; gizmo])) = 200
  /\ exists l pgs,
       snd (serve (GetProducts (Some 1) (Some 2)) [widget; gadget; gizmo])
       = jsonify (JDict [("products", JList l);
                         ("total", JInt 3);
                         ("pages", JInt pgs);
                         ("current_page", JInt 1)]) 200
       /\ (1 < pgs -> Z.of_nat (List.length l) = 2).
Proof.
  split; [reflexivity|].
  destruct (get_products_counts 1 2 [widget; gadget; gizmo] eq_refl)
    as [l [pgs [Hr [_ [Hfull _]]]]].
  exists l, pgs. split; [exact Hr | exact Hfull].
Defined.


Lemma non_object_body_500_witness :
  (forall kvs, JList [] <> JDict kvs)
  /\ serve (PostProduct (JList [])) [widget] = ([widget], generic_error)
  /\ serve (Login (JList [])) [widget] = ([widget], generic_error).
Proof.
  assert (H : forall kvs, JList [] <> JDict kvs) by (intros kvs; discriminate).
  split; [exact H|].
  destruct (non_object_body_500 (JList []) [widget] H) as [Hc [_ [Hl _]]].
  split; [exact Hc | exact Hl].
Defined.

